(** * Rent versus buy simulator: [simulate_rent_vs_buy] of [main-new.py]

    The program is a month-by-month recurrence over Python numbers.  The
    embedding below keeps the program's structure (derived quantities,
    loop state, one loop body, settlement) and reads every Python [float]
    as a real number: [+], [-], [*], [/] are the operations of [R],
    [max(a, b)] is [Rmax a b] and [x ** (1.0 / 12.0)] is the real twelfth
    root.  Rounding, infinities and NaN are therefore outside this model:
    its equalities are those of exact arithmetic.  Python [int] parameters
    (the two year counts) are integers of [Z].

    Whether the machine reaches a value exactly is a separate question.
    For the one place where it is asked, the zero-rate mortgage schedule,
    module [Binary64] transcribes the same lines over IEEE 754 binary64
    numbers, which is what a Python [float] is, and runs them. *)

From Stdlib Require Import Reals ZArith Lra Lia Bool String.
From Corelib Require Import PrimFloat.

Local Open Scope R_scope.

(** ** Python and numpy_financial primitives used by the program *)

Module Py.

(** [x ** (1.0 / 12.0)] on floats.  For a positive base this is the real
    power; [0.0 ** (1.0 / 12.0)] is [0.0].  For a negative base Python 3
    yields a complex number: the model has no value for it and returns
    0 there, so parameter sets with an annual rate below -100% are
    outside the model. *)
Definition root12 (x : R) : R :=
  if Rlt_dec 0 x then Rpower x (1 / 12) else 0.

(** [range(0, n)] runs [n] times for positive [n] and not at all
    otherwise. *)
Definition range_len (n : Z) : nat := Z.to_nat n.

(** The largest finite [float], (2 - 2^-52) * 2^1023.  A number beyond
    it is not a float: as a Python [int] it makes the first mixed
    operation raise [OverflowError], and a float operation whose result
    passes it gives an infinity. *)
Definition float_max : R := (2 - / 2 ^ 52) * 2 ^ 1023.

Definition finite (x : R) : Prop := Rabs x <= float_max.

End Py.

Module Npf.

(** [numpy_financial.pmt(rate, nper, pv)] with its defaults [fv = 0] and
    [when = 'end'] (encoded as 0), following the library's body:
      temp = (1 + rate) ** nper
      mask = (rate == 0)
      masked_rate = where(mask, 1, rate)
      fact = where(mask != 0, nper,
                   (1 + masked_rate * when) * (temp - 1) / masked_rate)
      return -(fv + pv * temp) / fact
    numpy evaluates both branches of [where]; the model evaluates the one
    that is selected.  A zero [fact] (a term of [nper = 0] payments)
    gives infinity or NaN in numpy and is outside the model: the quotient
    below has no meaning there, and what is stated about a payment is
    stated for a term that is not zero. *)
Definition fv : R := 0.
Definition when : R := 0.

Definition pmt (rate : R) (nper : Z) (pv : R) : R :=
  let temp := powerRZ (1 + rate) nper in
  let fact :=
    if Req_dec_T rate 0 then IZR nper
    else (1 + rate * when) * (temp - 1) / rate in
  - (fv + pv * temp) / fact.

End Npf.

(** ** Data model *)

(** The keyword arguments of [simulate_rent_vs_buy]. *)
Record Params : Type := mkParams {
  house_size_sqft : R;
  house_price_per_sqft : R;
  monthly_rent_per_sqft : R;
  down_payment_pct : R;
  mortgage_rate_annual : R;
  mortgage_years : Z;
  investment_return_annual : R;
  house_appreciation_annual : R;
  rent_increase_annual : R;
  gov_rate_pct_of_rent_annual : R;
  mgmt_fee_pct_of_value_annual : R;
  buy_closing_cost_pct : R;
  sell_closing_cost_pct : R;
  horizon_years : Z;
  invest_monthly_diffs : bool
}.

(** The default arguments of the signature. *)
Definition default_params : Params :=
  {| house_size_sqft := 500;
     house_price_per_sqft := 20000;
     monthly_rent_per_sqft := 50;
     down_payment_pct := 30 / 100;
     mortgage_rate_annual := 35 / 1000;
     mortgage_years := 30;
     investment_return_annual := 7 / 100;
     house_appreciation_annual := 1 / 100;
     rent_increase_annual := 2 / 100;
     gov_rate_pct_of_rent_annual := 5 / 100;
     mgmt_fee_pct_of_value_annual := 15 / 10000;
     buy_closing_cost_pct := 5 / 100;
     sell_closing_cost_pct := 1 / 100;
     horizon_years := 30;
     invest_monthly_diffs := true |}.

(** The local variables the loop mutates. *)
Record State : Type := mkState {
  property_value : R;
  market_rent : R;
  remaining_balance : R;
  owner_side_invest : R;
  renter_invest : R;
  total_owner_cash_out : R;
  total_renter_cash_out : R
}.

(** The [details] dictionary of the result. *)
Record Details : Type := mkDetails {
  remaining_mortgage_balance : R;
  property_value_end : R;
  monthly_rent_end : R;
  sale_closing_cost : R;
  owner_equity_realized : R;
  owner_side_invest_end : R;
  renter_invest_end : R;
  total_owner_cash_out_end : R;
  total_renter_cash_out_end : R;
  monthly_mortgage_payment : R
}.

(** [SimulationResult]; of the [params] dictionary the two derived
    entries are kept, the other entries repeat the arguments. *)
Record SimulationResult : Type := mkResult {
  params_house_price : R;
  params_monthly_rent : R;
  params_echo : Params;
  months : Z;
  buy_net_worth : R;
  rent_net_worth : R;
  net_advantage_buy : R;
  details : Details
}.

(** ** The program *)

Section Simulation.

Variable p : Params.

(** Derived quantities and monthly factors. *)
Definition n_months : Z := (horizon_years p * 12)%Z.
Definition house_price : R := house_size_sqft p * house_price_per_sqft p.
Definition monthly_rent : R := house_size_sqft p * monthly_rent_per_sqft p.
Definition down_payment : R := house_price * down_payment_pct p.
Definition loan_principal : R := house_price - down_payment.
Definition r_m : R := Py.root12 (1 + mortgage_rate_annual p) - 1.
Definition n_m : Z := (mortgage_years p * 12)%Z.
Definition mort_payment : R := - Npf.pmt r_m n_m loan_principal.
Definition f_house : R := Py.root12 (1 + house_appreciation_annual p).
Definition f_rent : R := Py.root12 (1 + rent_increase_annual p).
Definition f_inv : R := Py.root12 (1 + investment_return_annual p) - 1.
Definition buy_closing_cost : R := house_price * buy_closing_cost_pct p.

(** State before the loop. *)
Definition init_state : State :=
  {| property_value := house_price;
     market_rent := monthly_rent;
     remaining_balance := loan_principal;
     owner_side_invest := 0;
     renter_invest := 0 + (down_payment + buy_closing_cost);
     total_owner_cash_out := down_payment + buy_closing_cost;
     total_renter_cash_out := 0 |}.

(** The quantities a loop iteration computes from the state it enters
    with, named as in the loop body. *)
Definition interest (s : State) : R := remaining_balance s * r_m.
Definition principal (s : State) : R := Rmax (mort_payment - interest s) 0.
Definition mgmt_fee (s : State) : R :=
  property_value s * mgmt_fee_pct_of_value_annual p / 12.
Definition gov_rates (s : State) : R :=
  market_rent s * gov_rate_pct_of_rent_annual p.
Definition owner_monthly_cost (s : State) : R :=
  mort_payment + mgmt_fee s + gov_rates s.
Definition renter_monthly_cost (s : State) : R := market_rent s.
Definition diff (s : State) : R :=
  owner_monthly_cost s - renter_monthly_cost s.

(** One iteration of the loop body. *)
Definition step (s : State) : State :=
  let remaining_balance' := Rmax (remaining_balance s - principal s) 0 in
  let owner_side_invest' := owner_side_invest s * (1 + f_inv) in
  let renter_invest' := renter_invest s * (1 + f_inv) in
  let '(owner_side_invest'', renter_invest'') :=
    if invest_monthly_diffs p then
      if Rlt_dec 0 (diff s)
      then (owner_side_invest', renter_invest' + diff s)
      else (owner_side_invest' + - diff s, renter_invest')
    else (owner_side_invest', renter_invest') in
  {| property_value := property_value s * f_house;
     market_rent := market_rent s * f_rent;
     remaining_balance := remaining_balance';
     owner_side_invest := owner_side_invest'';
     renter_invest := renter_invest'';
     total_owner_cash_out := total_owner_cash_out s + owner_monthly_cost s;
     total_renter_cash_out :=
       total_renter_cash_out s + renter_monthly_cost s |}.

(** [for m in range(0, months)]: the body run [k] times from [s]. *)
Fixpoint loop (k : nat) (s : State) : State :=
  match k with
  | O => s
  | S k' => loop k' (step s)
  end.

(** The state entering iteration [k] (so after [k] iterations). *)
Definition state_at (k : nat) : State := loop k init_state.

Definition final_state : State := state_at (Py.range_len n_months).

(** End of horizon liquidation. *)
Definition sale_proceeds_before_costs (s : State) : R := property_value s.
Definition sell_closing_cost (s : State) : R :=
  sale_proceeds_before_costs s * sell_closing_cost_pct p.
Definition equity_realized (s : State) : R :=
  Rmax (sale_proceeds_before_costs s - sell_closing_cost s
        - remaining_balance s) 0.

Definition settle (s : State) : SimulationResult :=
  let buy := equity_realized s + owner_side_invest s in
  let rent := renter_invest s in
  {| params_house_price := house_price;
     params_monthly_rent := monthly_rent;
     params_echo := p;
     months := n_months;
     buy_net_worth := buy;
     rent_net_worth := rent;
     net_advantage_buy := buy - rent;
     details :=
       {| remaining_mortgage_balance := remaining_balance s;
          property_value_end := property_value s;
          monthly_rent_end := market_rent s;
          sale_closing_cost := sell_closing_cost s;
          owner_equity_realized := equity_realized s;
          owner_side_invest_end := owner_side_invest s;
          renter_invest_end := renter_invest s;
          total_owner_cash_out_end := total_owner_cash_out s;
          total_renter_cash_out_end := total_renter_cash_out s;
          monthly_mortgage_payment := mort_payment |} |}.

Definition simulate_rent_vs_buy : SimulationResult := settle final_state.

End Simulation.

(** With flat markets and no mortgage payment, what the owner saves
    against the renter in a month: the initial rent less the management
    fee and the levy on the initial value and rent, when that is
    positive. *)
Definition cash_monthly_saving (p : Params) : R :=
  Rmax (monthly_rent p
        - (house_price p * mgmt_fee_pct_of_value_annual p / 12
           + monthly_rent p * gov_rate_pct_of_rent_annual p)) 0.

(** The level payment of a loan without interest: the principal spread
    evenly over the payments of the term. *)
Definition straight_line_payment (p : Params) : R :=
  loan_principal p / IZR (mortgage_years p * 12).

(** ** The zero-rate mortgage lines in binary64 *)

Module Binary64.

(** [max(a, b)] on two floats: [b] when [b > a], otherwise [a]. *)
Definition max (a b : float) : float :=
  if (a <? b)%float then b else a.

(** [house_price - house_price * down_payment_pct].  The size and the
    price may be Python integers, whose product is exact; for the values
    used here the binary64 product is exact as well. *)
Definition loan_principal
    (house_size_sqft house_price_per_sqft down_payment_pct : float) : float :=
  let house_price := (house_size_sqft * house_price_per_sqft)%float in
  let down_payment := (house_price * down_payment_pct)%float in
  (house_price - down_payment)%float.

(** [1.0 ** y]: Python and numpy return [1.0] for base [1.0] whatever the
    exponent.  No other power is needed when the mortgage rate is [0.0]. *)
Definition pow_of_one : float := 1%float.

(** [r_m] for [mortgage_rate_annual = 0.0]:
    [(1.0 + 0.0) ** (1.0 / 12.0) - 1.0]. *)
Definition r_m_zero_rate : float := (pow_of_one - 1)%float.

(** [numpy_financial.pmt(0.0, nper, pv)]: [temp = 1.0 ** nper],
    [mask] holds, [fact = nper], result [-(fv + pv * temp) / fact] with
    [fv = 0]. *)
Definition pmt_zero_rate (nper pv : float) : float :=
  (- (0 + pv * pow_of_one) / nper)%float.

(** [float(-npf.pmt(r_m, n_m, loan_principal))]. *)
Definition mort_payment (nper loan_principal : float) : float :=
  (- pmt_zero_rate nper loan_principal)%float.

(** The four mortgage lines of the loop body. *)
Definition balance_step (mort_payment r_m remaining_balance : float) : float :=
  let interest := (remaining_balance * r_m)%float in
  let principal := (mort_payment - interest)%float in
  let principal := max principal 0%float in
  max (remaining_balance - principal)%float 0%float.

(** The balance after [k] iterations. *)
Fixpoint balance_after
    (mort_payment r_m : float) (k : nat) (remaining_balance : float) : float :=
  match k with
  | O => remaining_balance
  | S k' =>
      balance_after mort_payment r_m k'
        (balance_step mort_payment r_m remaining_balance)
  end.

(** The defaults with [mortgage_rate_annual = 0.0]: size 500, price 20000,
    down payment 0.30 (the binary64 number nearest to it, written in
    hexadecimal), 30 * 12 = 360 payments. *)
Definition zero_rate_principal : float :=
  loan_principal 500%float 20000%float 0x1.3333333333333p-2%float.

Definition zero_rate_payment : float :=
  mort_payment 360%float zero_rate_principal.

Definition zero_rate_balance (k : nat) : float :=
  balance_after zero_rate_payment r_m_zero_rate k zero_rate_principal.

End Binary64.

(** ** The call as seen by the caller *)

(** A Python call either returns a value or raises an exception. *)
Inductive exn : Type :=
| InvalidParameter.

Inductive outcome (A : Type) : Type :=
| Returns (a : A)
| Raises (e : exn).

Arguments Returns {A} a.
Arguments Raises {A} e.

(** The body of [simulate_rent_vs_buy] contains no [raise], no [assert]
    and no call to a validation routine: it runs the normaliser, the loop
    and the settlement and returns the record.  This is the return path
    only.  The Python runtime can still raise from inside the body, on
    inputs the real-number reading does not cover: [TypeError] when a
    rate below -100% makes a monthly factor complex and it reaches a
    comparison, [OverflowError] when a parameter is an [int] beyond the
    float range.  Those paths are not modelled: what is stated with
    [simulate] is stated for parameter sets with real factors
    ([real_factors]) inside the float range ([within_float_range]), or
    about the value returned. *)
Definition simulate (p : Params) : outcome SimulationResult :=
  Returns (simulate_rent_vs_buy p).

(** The parameter sets the specification calls invalid, in its words:
    a non-positive size, price, horizon or term, or an annual rate below
    -100%, for which a monthly factor is the root of a negative number. *)
Definition spec_invalid_parameter (p : Params) : Prop :=
  house_size_sqft p <= 0 \/ house_price_per_sqft p <= 0 \/
  (horizon_years p <= 0)%Z \/ (mortgage_years p <= 0)%Z \/
  1 + mortgage_rate_annual p < 0 \/ 1 + investment_return_annual p < 0 \/
  1 + house_appreciation_annual p < 0 \/ 1 + rent_increase_annual p < 0.

(** The parameter sets on which every monthly factor is a real number. *)
Definition real_factors (p : Params) : Prop :=
  0 <= 1 + mortgage_rate_annual p /\ 0 <= 1 + investment_return_annual p /\
  0 <= 1 + house_appreciation_annual p /\ 0 <= 1 + rent_increase_annual p.

(** The parameter sets inside the machine's ranges: every numeric
    parameter, and every amount derived from them before the loop and at
    settlement, is within the float range, and the number of mortgage
    payments fits a 64-bit integer (numpy's integer type). *)
Definition within_float_range (p : Params) : Prop :=
  (Py.finite (house_size_sqft p) /\ Py.finite (house_price_per_sqft p) /\
   Py.finite (monthly_rent_per_sqft p) /\ Py.finite (down_payment_pct p) /\
   Py.finite (mortgage_rate_annual p) /\
   Py.finite (investment_return_annual p) /\
   Py.finite (house_appreciation_annual p) /\
   Py.finite (rent_increase_annual p) /\
   Py.finite (gov_rate_pct_of_rent_annual p) /\
   Py.finite (mgmt_fee_pct_of_value_annual p) /\
   Py.finite (buy_closing_cost_pct p) /\
   Py.finite (sell_closing_cost_pct p)) /\
  (Py.finite (house_price p) /\ Py.finite (monthly_rent p) /\
   Py.finite (down_payment p) /\ Py.finite (loan_principal p) /\
   Py.finite (buy_closing_cost p) /\
   Py.finite (down_payment p + buy_closing_cost p) /\
   Py.finite (house_price p * sell_closing_cost_pct p) /\
   Py.finite (house_price p - house_price p * sell_closing_cost_pct p
              - loan_principal p)) /\
  (- 2 ^ 63 <= mortgage_years p * 12 < 2 ^ 63)%Z.

(** ** Variations of a parameter set *)

(** The same call with another value of [invest_monthly_diffs]. *)
Definition with_invest_monthly_diffs (b : bool) (p : Params) : Params :=
  {| house_size_sqft := house_size_sqft p;
     house_price_per_sqft := house_price_per_sqft p;
     monthly_rent_per_sqft := monthly_rent_per_sqft p;
     down_payment_pct := down_payment_pct p;
     mortgage_rate_annual := mortgage_rate_annual p;
     mortgage_years := mortgage_years p;
     investment_return_annual := investment_return_annual p;
     house_appreciation_annual := house_appreciation_annual p;
     rent_increase_annual := rent_increase_annual p;
     gov_rate_pct_of_rent_annual := gov_rate_pct_of_rent_annual p;
     mgmt_fee_pct_of_value_annual := mgmt_fee_pct_of_value_annual p;
     buy_closing_cost_pct := buy_closing_cost_pct p;
     sell_closing_cost_pct := sell_closing_cost_pct p;
     horizon_years := horizon_years p;
     invest_monthly_diffs := b |}.

(** The same call for a house [c] times the size. *)
Definition with_size_scaled (c : R) (p : Params) : Params :=
  {| house_size_sqft := c * house_size_sqft p;
     house_price_per_sqft := house_price_per_sqft p;
     monthly_rent_per_sqft := monthly_rent_per_sqft p;
     down_payment_pct := down_payment_pct p;
     mortgage_rate_annual := mortgage_rate_annual p;
     mortgage_years := mortgage_years p;
     investment_return_annual := investment_return_annual p;
     house_appreciation_annual := house_appreciation_annual p;
     rent_increase_annual := rent_increase_annual p;
     gov_rate_pct_of_rent_annual := gov_rate_pct_of_rent_annual p;
     mgmt_fee_pct_of_value_annual := mgmt_fee_pct_of_value_annual p;
     buy_closing_cost_pct := buy_closing_cost_pct p;
     sell_closing_cost_pct := sell_closing_cost_pct p;
     horizon_years := horizon_years p;
     invest_monthly_diffs := invest_monthly_diffs p |}.

(** A loop state with every amount multiplied by [c]. *)
Definition scale_state (c : R) (s : State) : State :=
  {| property_value := c * property_value s;
     market_rent := c * market_rent s;
     remaining_balance := c * remaining_balance s;
     owner_side_invest := c * owner_side_invest s;
     renter_invest := c * renter_invest s;
     total_owner_cash_out := c * total_owner_cash_out s;
     total_renter_cash_out := c * total_renter_cash_out s |}.

(** ** Running totals *)

(** [f 0 + ... + f (k - 1)]: the shape of a total accumulated with [+=]
    over the first [k] iterations. *)
Fixpoint sum_months (f : nat -> R) (k : nat) : R :=
  match k with
  | O => 0
  | S k' => sum_months f k' + f k'
  end.

(** ** The report of the [__main__] block of [main-new.py] *)

(** [verdict = "BUY better by" if adv > 0 else "RENT better by"], with
    [adv = res.net_advantage_buy]. *)
Definition verdict (res : SimulationResult) : string :=
  if Rlt_dec 0 (net_advantage_buy res)
  then "BUY better by"%string
  else "RENT better by"%string.

(** The amount printed after the verdict, [abs(adv)], before it is
    formatted as currency. *)
Definition verdict_amount (res : SimulationResult) : R :=
  Rabs (net_advantage_buy res).

(** ** The closed-form script [main.py] *)

Module Script.

(** The module-level constants of the script, taken as inputs. *)
Record Inputs : Type := mkInputs {
  house_price : R;
  monthly_rent : R;
  years : Z;
  mortgage_rate : R;
  house_appreciation : R;
  investment_yield : R
}.

(** The values the script assigns. *)
Definition script_inputs : Inputs :=
  {| house_price := 10000000;
     monthly_rent := 30000;
     years := 30;
     mortgage_rate := 35 / 1000;
     house_appreciation := 2 / 100;
     investment_yield := 7 / 100 |}.

(** The exceptions the script's arithmetic can raise. *)
Inductive error : Type :=
| ZeroDivisionError
| ValueError
| OverflowError.

(** A statement either yields a value or raises. *)
Inductive result (A : Type) : Type :=
| Ok (a : A)
| Err (e : error).

Arguments Ok {A} a.
Arguments Err {A} e.

Definition bind {A B : Type} (m : result A) (k : A -> result B) : result B :=
  match m with
  | Ok a => k a
  | Err e => Err e
  end.

(** Python's [/]: [ZeroDivisionError] on a zero divisor. *)
Definition div (x y : R) : result R :=
  if Req_dec_T y 0 then Err ZeroDivisionError else Ok (x / y).

(** [math.pow(x, n)] for an integer exponent [n]: [OverflowError] when
    [n] is too large to convert to a float, [ValueError] for a zero base
    with a negative exponent, [OverflowError] when the power is beyond
    the float range (up to rounding at the boundary), the real power
    otherwise. *)
Definition math_pow (x : R) (n : Z) : result R :=
  if Rlt_dec Py.float_max (Rabs (IZR n)) then Err OverflowError
  else if Req_dec_T x 0 then
    if (n <? 0)%Z then Err ValueError else Ok (powerRZ x n)
  else if Rlt_dec Py.float_max (Rabs (powerRZ x n)) then Err OverflowError
  else Ok (powerRZ x n).

(** The constants, the product [house_price * mortgage_rate] and the
    exponent [years * 12] are within the float range: no conversion of
    an oversized [int] raises before the power and the division. *)
Definition in_float_range (i : Inputs) : Prop :=
  Py.finite (house_price i) /\ Py.finite (monthly_rent i) /\
  Py.finite (mortgage_rate i) /\ Py.finite (house_appreciation i) /\
  Py.finite (investment_yield i) /\
  Py.finite (house_price i * mortgage_rate i) /\
  Py.finite (IZR (years i * 12)).

Section Run.

Variable i : Inputs.

(** [house_price / (monthly_rent * 12)]. *)
Definition price_to_rent_ratio : result R :=
  div (house_price i) (monthly_rent i * 12).

(** [house_price * mortgage_rate / 12
     * math.pow(1 + mortgage_rate / 12, years * 12)
     / (math.pow(1 + mortgage_rate / 12, years * 12) - 1)]: the power is
    taken before the division. *)
Definition monthly_payment : result R :=
  bind (math_pow (1 + mortgage_rate i / 12) (years i * 12)) (fun t =>
  div (house_price i * mortgage_rate i / 12 * t) (t - 1)).

(** [monthly_payment + house_price * 0.003 / 12 - monthly_rent]. *)
Definition investment_amount : result R :=
  bind monthly_payment (fun mp =>
  Ok (mp + house_price i * (3 / 1000) / 12 - monthly_rent i)).

(** [investment_amount
     * (math.pow(1 + investment_yield / 12, 12 * years) - 1)
     / (investment_yield / 12)]. *)
Definition investment_pv : result R :=
  bind investment_amount (fun a =>
  bind (math_pow (1 + investment_yield i / 12) (12 * years i)) (fun t =>
  div (a * (t - 1)) (investment_yield i / 12))).

(** [house_price * math.pow(1 + house_appreciation, years)]. *)
Definition house_value_end : result R :=
  bind (math_pow (1 + house_appreciation i) (years i)) (fun t =>
  Ok (house_price i * t)).

(** The script from top to bottom: the ratio it prints first, then the
    payment, the monthly amount and the investment value, then the house
    value and the lead of the investment in the last two prints.  The
    first statement that raises ends the run. *)
Definition run : result (R * R * R * R) :=
  bind price_to_rent_ratio (fun ratio =>
  bind investment_pv (fun pv =>
  bind house_value_end (fun hv =>
  Ok (ratio, pv, hv, pv - hv)))).

End Run.

End Script.

(** ** Concrete parameter sets used below *)

(** The defaults with a down payment of 150% of the price. *)
Definition overpaid_params : Params :=
  {| house_size_sqft := 500;
     house_price_per_sqft := 20000;
     monthly_rent_per_sqft := 50;
     down_payment_pct := 150 / 100;
     mortgage_rate_annual := 35 / 1000;
     mortgage_years := 30;
     investment_return_annual := 7 / 100;
     house_appreciation_annual := 1 / 100;
     rent_increase_annual := 2 / 100;
     gov_rate_pct_of_rent_annual := 5 / 100;
     mgmt_fee_pct_of_value_annual := 15 / 10000;
     buy_closing_cost_pct := 5 / 100;
     sell_closing_cost_pct := 1 / 100;
     horizon_years := 30;
     invest_monthly_diffs := true |}.

(** The defaults with a horizon of zero years. *)
Definition zero_horizon_params : Params :=
  {| house_size_sqft := 500;
     house_price_per_sqft := 20000;
     monthly_rent_per_sqft := 50;
     down_payment_pct := 30 / 100;
     mortgage_rate_annual := 35 / 1000;
     mortgage_years := 30;
     investment_return_annual := 7 / 100;
     house_appreciation_annual := 1 / 100;
     rent_increase_annual := 2 / 100;
     gov_rate_pct_of_rent_annual := 5 / 100;
     mgmt_fee_pct_of_value_annual := 15 / 10000;
     buy_closing_cost_pct := 5 / 100;
     sell_closing_cost_pct := 1 / 100;
     horizon_years := 0;
     invest_monthly_diffs := true |}.

(** The defaults with flat markets (zero investment return, appreciation
    and rent inflation) and the whole price paid up front. *)
Definition cash_purchase_params : Params :=
  {| house_size_sqft := 500;
     house_price_per_sqft := 20000;
     monthly_rent_per_sqft := 50;
     down_payment_pct := 1;
     mortgage_rate_annual := 35 / 1000;
     mortgage_years := 30;
     investment_return_annual := 0;
     house_appreciation_annual := 0;
     rent_increase_annual := 0;
     gov_rate_pct_of_rent_annual := 5 / 100;
     mgmt_fee_pct_of_value_annual := 15 / 10000;
     buy_closing_cost_pct := 5 / 100;
     sell_closing_cost_pct := 1 / 100;
     horizon_years := 30;
     invest_monthly_diffs := true |}.

(** The defaults with a mortgage rate of zero. *)
Definition zero_rate_params : Params :=
  {| house_size_sqft := 500;
     house_price_per_sqft := 20000;
     monthly_rent_per_sqft := 50;
     down_payment_pct := 30 / 100;
     mortgage_rate_annual := 0;
     mortgage_years := 30;
     investment_return_annual := 7 / 100;
     house_appreciation_annual := 1 / 100;
     rent_increase_annual := 2 / 100;
     gov_rate_pct_of_rent_annual := 5 / 100;
     mgmt_fee_pct_of_value_annual := 15 / 10000;
     buy_closing_cost_pct := 5 / 100;
     sell_closing_cost_pct := 1 / 100;
     horizon_years := 30;
     invest_monthly_diffs := true |}.

(** The defaults with a house size of zero. *)
Definition zero_size_params : Params :=
  {| house_size_sqft := 0;
     house_price_per_sqft := 20000;
     monthly_rent_per_sqft := 50;
     down_payment_pct := 30 / 100;
     mortgage_rate_annual := 35 / 1000;
     mortgage_years := 30;
     investment_return_annual := 7 / 100;
     house_appreciation_annual := 1 / 100;
     rent_increase_annual := 2 / 100;
     gov_rate_pct_of_rent_annual := 5 / 100;
     mgmt_fee_pct_of_value_annual := 15 / 10000;
     buy_closing_cost_pct := 5 / 100;
     sell_closing_cost_pct := 1 / 100;
     horizon_years := 30;
     invest_monthly_diffs := true |}.

(** The defaults with monthly differential investing switched off. *)
Definition no_diffs_params : Params :=
  {| house_size_sqft := 500;
     house_price_per_sqft := 20000;
     monthly_rent_per_sqft := 50;
     down_payment_pct := 30 / 100;
     mortgage_rate_annual := 35 / 1000;
     mortgage_years := 30;
     investment_return_annual := 7 / 100;
     house_appreciation_annual := 1 / 100;
     rent_increase_annual := 2 / 100;
     gov_rate_pct_of_rent_annual := 5 / 100;
     mgmt_fee_pct_of_value_annual := 15 / 10000;
     buy_closing_cost_pct := 5 / 100;
     sell_closing_cost_pct := 1 / 100;
     horizon_years := 30;
     invest_monthly_diffs := false |}.

(** * Properties *)

(** ** The float range *)

Lemma float_max_ge_pow2 : 2 ^ 1023 <= Py.float_max.
Proof.
  unfold Py.float_max.
  assert (H52 : 0 < / 2 ^ 52 <= 1).
  { assert (H : 1 <= 2 ^ 52) by (apply pow_R1_Rle; lra).
    split; [apply Rinv_0_lt_compat; lra |].
    rewrite <- Rinv_1. apply Rinv_le_contravar; lra. }
  assert (Hp : 0 < 2 ^ 1023) by (apply pow_lt; lra).
  assert (1 * 2 ^ 1023 <= (2 - / 2 ^ 52) * 2 ^ 1023)
    by (apply Rmult_le_compat_r; lra).
  lra.
Qed.

Lemma float_max_ge_one : 1 <= Py.float_max.
Proof.
  pose proof float_max_ge_pow2.
  assert (1 <= 2 ^ 1023) by (apply pow_R1_Rle; lra). lra.
Qed.

Lemma finite_small (x : R) : Rabs x <= 2 ^ 1023 -> Py.finite x.
Proof.
  intros H. unfold Py.finite. pose proof float_max_ge_pow2. lra.
Qed.

(** Amounts up to a million millions are far inside the float range. *)
Lemma finite_modest (x : R) : - 10 ^ 12 <= x <= 10 ^ 12 -> Py.finite x.
Proof.
  intros [Hlo Hhi]. apply finite_small.
  assert (H40 : 10 ^ 12 <= 2 ^ 40) by lra.
  assert (Hle : 2 ^ 40 <= 2 ^ 1023) by (apply Rle_pow; [lra | lia]).
  unfold Rabs. destruct (Rcase_abs x); lra.
Qed.

Lemma finite_exponent (n : Z) : (-1023 <= n <= 1023)%Z -> Py.finite (IZR n).
Proof.
  intros [Hlo Hhi]. apply finite_modest.
  apply IZR_le in Hlo. apply IZR_le in Hhi.
  assert (1023 <= 10 ^ 12) by lra.
  split; lra.
Qed.

(** ** The twelfth root *)

Lemma root12_pos (x : R) : 0 < x -> Py.root12 x = Rpower x (1 / 12).
Proof.
  intros Hx. unfold Py.root12. destruct (Rlt_dec 0 x); [reflexivity | lra].
Qed.

Lemma root12_one : Py.root12 1 = 1.
Proof.
  rewrite root12_pos by lra.
  unfold Rpower. rewrite ln_1, Rmult_0_r. apply exp_0.
Qed.

Lemma root12_nonneg (x : R) : 0 <= Py.root12 x.
Proof.
  unfold Py.root12. destruct (Rlt_dec 0 x); [| lra].
  left. unfold Rpower. apply exp_pos.
Qed.

Lemma root12_ge_one (x : R) : 1 <= x -> 1 <= Py.root12 x.
Proof.
  intros Hx. rewrite root12_pos by lra.
  rewrite <- root12_one at 1. rewrite root12_pos by lra.
  apply Rle_Rpower_l; lra.
Qed.

(** The twelfth power of the twelfth root gives the base back. *)
Lemma root12_pow12 (x : R) : 0 < x -> Py.root12 x ^ 12 = x.
Proof.
  intros Hx. rewrite root12_pos by assumption.
  rewrite <- Rpower_pow by (unfold Rpower; apply exp_pos).
  rewrite Rpower_mult.
  replace (1 / 12 * INR 12) with 1 by (simpl; lra).
  apply Rpower_1; assumption.
Qed.

(** A positive number is the twelfth root of its twelfth power. *)
Lemma root12_of_pow12 (a : R) : 0 < a -> Py.root12 (a ^ 12) = a.
Proof.
  intros Ha.
  rewrite root12_pos by (apply pow_lt; assumption).
  rewrite <- Rpower_pow by assumption.
  rewrite Rpower_mult.
  replace (INR 12 * (1 / 12)) with 1 by (simpl; lra).
  apply Rpower_1; assumption.
Qed.

Lemma root12_mono (x y : R) : 0 < x -> x <= y -> Py.root12 x <= Py.root12 y.
Proof.
  intros Hx Hxy. rewrite !root12_pos by lra.
  apply Rle_Rpower_l; lra.
Qed.

(** A positive number whose twelfth power is below [x] is below the root,
    and likewise above: the way the root is bracketed by rationals. *)
Lemma root12_lower (a x : R) : 0 < a -> a ^ 12 <= x -> a <= Py.root12 x.
Proof.
  intros Ha Hax. rewrite <- (root12_of_pow12 a Ha) at 1.
  apply root12_mono; [apply pow_lt; assumption | assumption].
Qed.

Lemma root12_upper (a x : R) : 0 < a -> 0 < x -> x <= a ^ 12 -> Py.root12 x <= a.
Proof.
  intros Ha Hx Hax.
  apply Rle_trans with (Py.root12 (a ^ 12)).
  - apply root12_mono; assumption.
  - rewrite root12_of_pow12 by assumption. apply Rle_refl.
Qed.

(** ** The loop *)

Lemma loop_snoc (p : Params) (k : nat) (s : State) :
  loop p (S k) s = step p (loop p k s).
Proof.
  revert s. induction k as [| k IH]; intros s; [reflexivity |].
  change (loop p (S (S k)) s) with (loop p (S k) (step p s)).
  rewrite IH. reflexivity.
Qed.

Lemma state_at_S (p : Params) (k : nat) :
  state_at p (S k) = step p (state_at p k).
Proof. apply loop_snoc. Qed.

(** The loop body has three branches (flag off, renter invests, owner
    invests); fields that do not depend on the branch come out by
    computation in each. *)
Ltac step_branches p s :=
  unfold step;
  destruct (invest_monthly_diffs p), (Rlt_dec 0 (diff p s));
  reflexivity.

Lemma step_property_value (p : Params) (s : State) :
  property_value (step p s) = property_value s * f_house p.
Proof. step_branches p s. Qed.

Lemma step_market_rent (p : Params) (s : State) :
  market_rent (step p s) = market_rent s * f_rent p.
Proof. step_branches p s. Qed.

Lemma step_remaining_balance (p : Params) (s : State) :
  remaining_balance (step p s) =
  Rmax (remaining_balance s - Rmax (mort_payment p - remaining_balance s * r_m p) 0) 0.
Proof. step_branches p s. Qed.

Lemma step_total_owner_cash_out (p : Params) (s : State) :
  total_owner_cash_out (step p s) = total_owner_cash_out s + owner_monthly_cost p s.
Proof. step_branches p s. Qed.

Lemma step_total_renter_cash_out (p : Params) (s : State) :
  total_renter_cash_out (step p s) = total_renter_cash_out s + market_rent s.
Proof. step_branches p s. Qed.

(** The two side accounts after an iteration, by the three branches. *)
Lemma step_invest_off (p : Params) (s : State) :
  invest_monthly_diffs p = false ->
  owner_side_invest (step p s) = owner_side_invest s * (1 + f_inv p) /\
  renter_invest (step p s) = renter_invest s * (1 + f_inv p).
Proof. intros H. unfold step. rewrite H. split; reflexivity. Qed.

Lemma step_invest_renter (p : Params) (s : State) :
  invest_monthly_diffs p = true -> 0 < diff p s ->
  owner_side_invest (step p s) = owner_side_invest s * (1 + f_inv p) /\
  renter_invest (step p s) = renter_invest s * (1 + f_inv p) + diff p s.
Proof.
  intros H Hd. unfold step. rewrite H.
  destruct (Rlt_dec 0 (diff p s)); [split; reflexivity | contradiction].
Qed.

Lemma step_invest_owner (p : Params) (s : State) :
  invest_monthly_diffs p = true -> diff p s <= 0 ->
  owner_side_invest (step p s) = owner_side_invest s * (1 + f_inv p) + - diff p s /\
  renter_invest (step p s) = renter_invest s * (1 + f_inv p).
Proof.
  intros H Hd. unfold step. rewrite H.
  destruct (Rlt_dec 0 (diff p s)); [lra | split; reflexivity].
Qed.

(** Property value and market rent entering iteration [k]. *)
Lemma property_value_at (p : Params) (k : nat) :
  property_value (state_at p k) = house_price p * f_house p ^ k.
Proof.
  induction k as [| k IH]; [simpl; unfold state_at; simpl; lra |].
  rewrite state_at_S, step_property_value, IH. simpl. ring.
Qed.

Lemma market_rent_at (p : Params) (k : nat) :
  market_rent (state_at p k) = monthly_rent p * f_rent p ^ k.
Proof.
  induction k as [| k IH]; [simpl; unfold state_at; simpl; lra |].
  rewrite state_at_S, step_market_rent, IH. simpl. ring.
Qed.

(** ** Recurring owner costs (loop body, cost lines) *)

(** C1: in every iteration the government levy is the current market rent
    times the whole annual levy fraction, with no division by 12; the
    management fee is the current property value times a twelfth of the
    annual fee fraction; the owner's monthly cost is mortgage payment +
    management fee + levy, and that is the amount the iteration charges
    to the owner (seen on the owner's running cash-out total). *)
Theorem C1_levy_charged_monthly_undivided (p : Params) (k : nat) :
  let s := state_at p k in
  gov_rates p s = market_rent s * gov_rate_pct_of_rent_annual p /\
  mgmt_fee p s = property_value s * (mgmt_fee_pct_of_value_annual p / 12) /\
  owner_monthly_cost p s = mort_payment p + mgmt_fee p s + gov_rates p s /\
  total_owner_cash_out (state_at p (S k)) - total_owner_cash_out s =
    mort_payment p
    + house_price p * f_house p ^ k * (mgmt_fee_pct_of_value_annual p / 12)
    + monthly_rent p * f_rent p ^ k * gov_rate_pct_of_rent_annual p.
Proof.
  intros s. subst s. repeat split.
  - unfold mgmt_fee. field.
  - rewrite state_at_S, step_total_owner_cash_out.
    unfold owner_monthly_cost, mgmt_fee, gov_rates.
    rewrite property_value_at, market_rent_at. field.
Qed.

(** ** Mortgage service (loop body, balance lines) *)

Lemma balance_step_nonneg (p : Params) (s : State) :
  0 <= remaining_balance (step p s).
Proof. rewrite step_remaining_balance. apply Rmax_r. Qed.

Lemma balance_step_le (p : Params) (s : State) :
  0 <= remaining_balance s -> remaining_balance (step p s) <= remaining_balance s.
Proof.
  intros Hb. rewrite step_remaining_balance.
  apply Rmax_lub; [| assumption].
  pose proof (Rmax_r (mort_payment p - remaining_balance s * r_m p) 0). lra.
Qed.

Lemma balance_at_nonneg (p : Params) (k : nat) :
  0 <= loan_principal p \/ (1 <= k)%nat -> 0 <= remaining_balance (state_at p k).
Proof.
  intros H. destruct k as [| k].
  - destruct H as [H | H]; [exact H | lia].
  - rewrite state_at_S. apply balance_step_nonneg.
Qed.

(** The defaults with a 150% down payment: the balance entering the loop
    is the negative loan principal, and the first iteration lifts it to
    the floor, so it rises. *)
Lemma C2_counterexample_overpaid :
  remaining_balance (state_at overpaid_params 0) = -5000000 /\
  ~ (remaining_balance (state_at overpaid_params 1)
     <= remaining_balance (state_at overpaid_params 0)).
Proof.
  assert (H0 : remaining_balance (state_at overpaid_params 0) = -5000000).
  { unfold state_at, loop, init_state, loan_principal, down_payment, house_price.
    simpl. lra. }
  split; [exact H0 |].
  rewrite H0. pose proof (balance_at_nonneg overpaid_params 1 (or_intror (le_n 1))).
  lra.
Qed.

(** C2 (amended): each iteration updates the balance to
    max(balance - max(payment - balance * r_m, 0), 0); the balance after
    any iteration is >= 0, and it is <= the balance before that iteration
    whenever that balance is not negative, which is the case in every
    iteration when the loan principal is not negative and from the second
    iteration on for every parameter set, whatever the horizon and the
    mortgage term. *)
Theorem C2_balance_floored_and_non_increasing (p : Params) (k : nat) :
  let b := remaining_balance (state_at p k) in
  let b' := remaining_balance (state_at p (S k)) in
  b' = Rmax (b - Rmax (mort_payment p - b * r_m p) 0) 0 /\
  0 <= b' /\
  (0 <= b -> b' <= b) /\
  (0 <= loan_principal p \/ (1 <= k)%nat -> 0 <= b /\ b' <= b).
Proof.
  intros b b'. subst b b'. rewrite state_at_S. repeat split.
  - apply step_remaining_balance.
  - apply balance_step_nonneg.
  - apply balance_step_le.
  - apply balance_at_nonneg; assumption.
  - apply balance_step_le, balance_at_nonneg; assumption.
Qed.

(** ** Horizon settlement *)

(** C3: the realized owner equity of the result is
    max(final property value - final property value * sell closing cost
    fraction - remaining balance, 0), hence never negative, and the buy
    net worth is that equity plus the final owner-side balance, the
    balance being the one the loop left (nothing is compounded again). *)
Theorem C3_equity_floored_and_added_nominally (p : Params) :
  let r := simulate_rent_vs_buy p in
  let d := details r in
  owner_equity_realized d =
    Rmax (property_value_end d
          - property_value_end d * sell_closing_cost_pct p
          - remaining_mortgage_balance d) 0 /\
  0 <= owner_equity_realized d /\
  buy_net_worth r = owner_equity_realized d + owner_side_invest_end d /\
  property_value_end d = property_value (final_state p) /\
  remaining_mortgage_balance d = remaining_balance (final_state p) /\
  owner_side_invest_end d = owner_side_invest (final_state p).
Proof.
  intros r d. subst r d. simpl. repeat split. apply Rmax_r.
Qed.

(** ** Differential investment (loop body, side accounts) *)

(** C6: with differential investing enabled, an iteration first compounds
    both side balances by (1 + f_inv) and then adds cash to one side only:
    with diff = owner monthly cost - market rent, the renter side receives
    diff when diff > 0, otherwise the owner side receives -diff (zero when
    diff is zero); the two contributions are never both non-zero. *)
Theorem C6_contribution_goes_to_one_side (p : Params) (s : State) :
  invest_monthly_diffs p = true ->
  let d := owner_monthly_cost p s - market_rent s in
  let owner_added :=
    owner_side_invest (step p s) - owner_side_invest s * (1 + f_inv p) in
  let renter_added :=
    renter_invest (step p s) - renter_invest s * (1 + f_inv p) in
  (0 < d -> renter_added = d /\ owner_added = 0) /\
  (d <= 0 -> owner_added = - d /\ renter_added = 0) /\
  (owner_added = 0 \/ renter_added = 0).
Proof.
  intros Hflag d owner_added renter_added.
  subst d owner_added renter_added.
  change (owner_monthly_cost p s - market_rent s) with (diff p s).
  destruct (Rlt_dec 0 (diff p s)) as [Hd | Hd].
  - destruct (step_invest_renter p s Hflag Hd) as [Ho Hr].
    rewrite Ho, Hr. repeat split; try lra; left; lra.
  - assert (Hd' : diff p s <= 0) by lra.
    destruct (step_invest_owner p s Hflag Hd') as [Ho Hr].
    rewrite Ho, Hr. repeat split; try lra; right; lra.
Qed.

Lemma C6_witness_default_first_month :
  invest_monthly_diffs default_params = true /\
  (owner_side_invest (step default_params (init_state default_params))
     - owner_side_invest (init_state default_params) * (1 + f_inv default_params) = 0
   \/ renter_invest (step default_params (init_state default_params))
     - renter_invest (init_state default_params) * (1 + f_inv default_params) = 0).
Proof.
  split; [reflexivity |].
  apply (C6_contribution_goes_to_one_side default_params
           (init_state default_params)).
  reflexivity.
Defined.

(** ** Side accounts over the whole loop *)

Lemma invest_off_at (p : Params) (k : nat) :
  invest_monthly_diffs p = false ->
  owner_side_invest (state_at p k) = 0 /\
  renter_invest (state_at p k) =
    (down_payment p + buy_closing_cost p) * (1 + f_inv p) ^ k.
Proof.
  intros Hflag. induction k as [| k [IHo IHr]].
  - unfold state_at; simpl. split; lra.
  - rewrite state_at_S.
    destruct (step_invest_off p (state_at p k) Hflag) as [Ho Hr].
    rewrite Ho, Hr, IHo, IHr. simpl. split; ring.
Qed.

(** C5: with differential investing disabled no iteration adds cash to
    either side account (each iteration only multiplies both by
    1 + f_inv), so the final renter-side balance, which is the rent net
    worth, is (down payment + buy closing cost) * (1 + f_inv)^months and
    the final owner-side balance is 0, with
    f_inv = (1 + investment return)^(1/12) - 1 and months the number of
    iterations, horizon_years * 12 for a horizon that is not negative. *)
Theorem C5_no_contributions_when_disabled (p : Params) :
  invest_monthly_diffs p = false ->
  let r := simulate_rent_vs_buy p in
  let n := Py.range_len (horizon_years p * 12) in
  (forall k : nat,
     owner_side_invest (state_at p (S k)) =
       owner_side_invest (state_at p k) * (1 + f_inv p) /\
     renter_invest (state_at p (S k)) =
       renter_invest (state_at p k) * (1 + f_inv p)) /\
  renter_invest_end (details r) =
    (down_payment p + buy_closing_cost p) * (1 + f_inv p) ^ n /\
  rent_net_worth r =
    (down_payment p + buy_closing_cost p) * (1 + f_inv p) ^ n /\
  owner_side_invest_end (details r) = 0 /\
  ((0 <= horizon_years p)%Z ->
   rent_net_worth r =
     (down_payment p + buy_closing_cost p)
     * powerRZ (1 + f_inv p) (horizon_years p * 12)) /\
  f_inv p = Py.root12 (1 + investment_return_annual p) - 1 /\
  (0 < 1 + investment_return_annual p ->
   f_inv p = Rpower (1 + investment_return_annual p) (1 / 12) - 1).
Proof.
  intros Hflag r n. subst r n.
  destruct (invest_off_at p (Py.range_len (horizon_years p * 12)) Hflag)
    as [Ho Hr].
  repeat split; try assumption.
  - rewrite state_at_S. apply (step_invest_off p _ Hflag).
  - rewrite state_at_S. apply (step_invest_off p _ Hflag).
  - intros Hh. change (rent_net_worth (simulate_rent_vs_buy p))
      with (renter_invest (final_state p)).
    unfold final_state, n_months. rewrite Hr. f_equal.
    rewrite pow_powerRZ. f_equal. unfold Py.range_len. lia.
  - intros Hpos. unfold f_inv. rewrite root12_pos by assumption. reflexivity.
Qed.

Lemma C5_witness_defaults_without_diffs :
  invest_monthly_diffs no_diffs_params = false /\
  rent_net_worth (simulate_rent_vs_buy no_diffs_params) =
    (down_payment no_diffs_params + buy_closing_cost no_diffs_params)
    * (1 + f_inv no_diffs_params) ^ 360 /\
  owner_side_invest_end (details (simulate_rent_vs_buy no_diffs_params)) = 0.
Proof.
  split; [reflexivity |].
  pose proof (C5_no_contributions_when_disabled no_diffs_params eq_refl)
    as (_ & _ & Hr & Ho & _).
  split; [exact Hr | exact Ho].
Defined.

Lemma f_inv_nonneg (p : Params) :
  0 <= investment_return_annual p -> 0 <= f_inv p.
Proof.
  intros H. unfold f_inv.
  pose proof (root12_ge_one (1 + investment_return_annual p)). lra.
Qed.

Lemma seed_nonneg (p : Params) :
  0 <= house_size_sqft p -> 0 <= house_price_per_sqft p ->
  0 <= down_payment_pct p -> 0 <= buy_closing_cost_pct p ->
  0 <= down_payment p + buy_closing_cost p.
Proof.
  intros Hs Hp Hd Hb. unfold down_payment, buy_closing_cost, house_price.
  assert (0 <= house_size_sqft p * house_price_per_sqft p)
    by (apply Rmult_le_pos; assumption).
  apply Rplus_le_le_0_compat; apply Rmult_le_pos; assumption.
Qed.

(** One iteration keeps non-negative side balances non-negative and does
    not lower the renter's. *)
Lemma step_invest_monotone (p : Params) (s : State) :
  0 <= f_inv p -> 0 <= owner_side_invest s -> 0 <= renter_invest s ->
  0 <= owner_side_invest (step p s) /\
  renter_invest s <= renter_invest (step p s).
Proof.
  intros Hf Ho Hr.
  assert (Ho' : 0 <= owner_side_invest s * f_inv p)
    by (apply Rmult_le_pos; assumption).
  assert (Hr' : 0 <= renter_invest s * f_inv p)
    by (apply Rmult_le_pos; assumption).
  destruct (invest_monthly_diffs p) eqn:Hflag.
  - destruct (Rlt_dec 0 (diff p s)) as [Hd | Hd].
    + destruct (step_invest_renter p s Hflag Hd) as [-> ->]. lra.
    + assert (Hd' : diff p s <= 0) by lra.
      destruct (step_invest_owner p s Hflag Hd') as [-> ->]. lra.
  - destruct (step_invest_off p s Hflag) as [-> ->]. lra.
Qed.

Lemma invest_at_nonneg (p : Params) (k : nat) :
  0 <= f_inv p -> 0 <= down_payment p + buy_closing_cost p ->
  0 <= owner_side_invest (state_at p k) /\
  down_payment p + buy_closing_cost p <= renter_invest (state_at p k).
Proof.
  intros Hf Hseed. induction k as [| k [IHo IHr]].
  - unfold state_at; simpl. lra.
  - rewrite state_at_S.
    destruct (step_invest_monotone p (state_at p k) Hf IHo) as [Ho Hr]; lra.
Qed.

(** C10: with a non-negative investment return and non-negative size,
    price, down-payment fraction and buy closing-cost fraction, both side
    balances are non-negative after every iteration, the renter-side
    balance never decreases from one iteration to the next, and the rent
    net worth returned is at least the seed
    down payment + buy closing cost. *)
Theorem C10_side_balances_nonneg_renter_monotone (p : Params) :
  0 <= investment_return_annual p ->
  0 <= house_size_sqft p -> 0 <= house_price_per_sqft p ->
  0 <= down_payment_pct p -> 0 <= buy_closing_cost_pct p ->
  (forall k : nat,
     0 <= owner_side_invest (state_at p k) /\
     0 <= renter_invest (state_at p k) /\
     renter_invest (state_at p k) <= renter_invest (state_at p (S k))) /\
  down_payment p + buy_closing_cost p
    <= rent_net_worth (simulate_rent_vs_buy p).
Proof.
  intros Hret Hs Hp Hd Hb.
  pose proof (f_inv_nonneg p Hret) as Hf.
  pose proof (seed_nonneg p Hs Hp Hd Hb) as Hseed.
  split.
  - intros k. destruct (invest_at_nonneg p k Hf Hseed) as [Ho Hr].
    rewrite state_at_S.
    destruct (step_invest_monotone p (state_at p k) Hf Ho) as [_ Hm]; lra.
  - apply (invest_at_nonneg p _ Hf Hseed).
Qed.

Lemma C10_witness_defaults :
  down_payment default_params + buy_closing_cost default_params
    <= rent_net_worth (simulate_rent_vs_buy default_params).
Proof.
  apply (C10_side_balances_nonneg_renter_monotone default_params);
    simpl; lra.
Defined.

(** ** Zero mortgage rate: straight-line amortization *)

Lemma r_m_zero_rate (p : Params) : mortgage_rate_annual p = 0 -> r_m p = 0.
Proof.
  intros H. unfold r_m. rewrite H, Rplus_0_r, root12_one. lra.
Qed.

(** At rate zero [pmt] takes the [mask] branch: [fact = nper]. *)
Lemma pmt_zero_rate (nper : Z) (pv : R) :
  Npf.pmt 0 nper pv = - (pv / IZR nper).
Proof.
  unfold Npf.pmt, Npf.fv.
  destruct (Req_dec_T 0 0) as [_ | Hne]; [| contradiction Hne; reflexivity].
  rewrite Rplus_0_r, powerRZ_R1. unfold Rdiv. ring.
Qed.

Lemma mort_payment_zero_rate (p : Params) :
  mortgage_rate_annual p = 0 ->
  mort_payment p = loan_principal p / IZR (mortgage_years p * 12).
Proof.
  intros H. unfold mort_payment. rewrite (r_m_zero_rate p H), pmt_zero_rate.
  unfold n_m. lra.
Qed.

Section StraightLine.

Variable p : Params.
Hypothesis Hrate : mortgage_rate_annual p = 0.
Hypothesis Hterm : (0 < mortgage_years p)%Z.

Lemma term_months_pos : 0 < IZR (mortgage_years p * 12).
Proof. apply IZR_lt. lia. Qed.

Lemma straight_step (s : State) :
  remaining_balance (step p s) =
  Rmax (remaining_balance s - Rmax (straight_line_payment p) 0) 0.
Proof.
  rewrite step_remaining_balance, (r_m_zero_rate p Hrate),
    (mort_payment_zero_rate p Hrate).
  unfold straight_line_payment. rewrite Rmult_0_r, Rminus_0_r. reflexivity.
Qed.

(** A non-negative principal is paid down by the payment each iteration until the
    floor is reached. *)
Lemma straight_balance_at (k : nat) :
  0 <= loan_principal p ->
  remaining_balance (state_at p k) = Rmax (loan_principal p - INR k * straight_line_payment p) 0.
Proof.
  intros HL.
  assert (Hc : 0 <= straight_line_payment p).
  { unfold straight_line_payment, Rdiv. apply Rmult_le_pos; [assumption |].
    left. apply Rinv_0_lt_compat, term_months_pos. }
  induction k as [| k IH].
  - unfold state_at; simpl. rewrite Rmult_0_l, Rminus_0_r.
    rewrite Rmax_left by assumption. reflexivity.
  - rewrite state_at_S, straight_step, IH, S_INR.
    rewrite (Rmax_left (straight_line_payment p) 0) by assumption.
    unfold Rmax.
    destruct (Rle_dec (loan_principal p - INR k * straight_line_payment p) 0);
      destruct (Rle_dec (0 - straight_line_payment p) 0);
      destruct (Rle_dec (loan_principal p - INR k * straight_line_payment p
                          - straight_line_payment p) 0);
      destruct (Rle_dec (loan_principal p - (INR k + 1) * straight_line_payment p) 0);
      lra.
Qed.

(** A negative principal is lifted to the floor by the first
    iteration and stays there. *)
Lemma straight_balance_negative (k : nat) :
  loan_principal p < 0 -> remaining_balance (state_at p (S k)) = 0.
Proof.
  intros HL.
  assert (Hc : straight_line_payment p < 0).
  { unfold straight_line_payment, Rdiv. rewrite <- (Rmult_0_l (/ IZR (mortgage_years p * 12))).
    apply Rmult_lt_compat_r; [| assumption].
    apply Rinv_0_lt_compat, term_months_pos. }
  induction k as [| k IH].
  - rewrite state_at_S, straight_step.
    rewrite (Rmax_right (straight_line_payment p) 0) by lra.
    unfold state_at; simpl. rewrite Rminus_0_r.
    apply Rmax_right. lra.
  - rewrite state_at_S, straight_step, IH.
    rewrite (Rmax_right (straight_line_payment p) 0) by lra.
    rewrite Rminus_0_r. apply Rmax_right. lra.
Qed.

Lemma straight_paid_off (k : nat) :
  (Z.to_nat (mortgage_years p * 12) <= k)%nat ->
  remaining_balance (state_at p k) = 0.
Proof.
  intros Hk.
  destruct (Rle_lt_dec 0 (loan_principal p)) as [HL | HL].
  - rewrite straight_balance_at by assumption.
    apply Rmax_right.
    pose proof term_months_pos as Hn.
    assert (Hkn : IZR (mortgage_years p * 12) <= INR k).
    { rewrite INR_IZR_INZ. apply IZR_le. lia. }
    assert (Hnc : IZR (mortgage_years p * 12) * straight_line_payment p = loan_principal p).
    { unfold straight_line_payment. field. lra. }
    assert (Hc : 0 <= straight_line_payment p).
    { unfold straight_line_payment, Rdiv. apply Rmult_le_pos; [assumption |].
      left. apply Rinv_0_lt_compat; assumption. }
    assert (IZR (mortgage_years p * 12) * straight_line_payment p
            <= INR k * straight_line_payment p)
      by (apply Rmult_le_compat_r; assumption).
    lra.
  - destruct k as [| k]; [lia |].
    apply straight_balance_negative; assumption.
Qed.

End StraightLine.

(** The defaults with a mortgage rate of 0.0, run in binary64: the loan
    principal is 7000000.0 and the monthly rate 0.0; the payment
    7000000.0 / 360.0 is a rounded quotient, and after the 360
    subtractions of the loop the balance is 0x1.ad4p-25 (about 4.997e-08),
    which [== 0] rejects.  The floor brings it to 0.0 only in the
    iteration after. *)
Lemma C4_counterexample_binary64_residue :
  Binary64.zero_rate_principal = 7000000%float /\
  Binary64.r_m_zero_rate = 0%float /\
  Binary64.zero_rate_payment = (7000000 / 360)%float /\
  Binary64.zero_rate_balance 360 = 0x1.ad4p-25%float /\
  (Binary64.zero_rate_balance 360 =? 0)%float = false /\
  Binary64.zero_rate_balance 361 = 0%float.
Proof. vm_compute. repeat split. Qed.

(** C4 (amended): with an annual mortgage rate of 0 the monthly rate is
    exactly 0 and the call returns (the payment formula takes its
    rate-zero branch and does not divide by the rate) with monthly
    payment loan principal / (mortgage_years * 12); when the horizon is
    at least the mortgage term, the remaining balance after
    mortgage_years * 12 iterations, and the one reported at the end, is 0
    in exact arithmetic (the binary64 run can leave a rounding residue
    instead, as above). *)
Theorem C4_zero_rate_straight_line (p : Params) :
  mortgage_rate_annual p = 0 ->
  (0 < mortgage_years p)%Z ->
  r_m p = 0 /\
  (exists r : SimulationResult,
     simulate p = Returns r /\
     monthly_mortgage_payment (details r) =
       loan_principal p / IZR (mortgage_years p * 12) /\
     ((mortgage_years p <= horizon_years p)%Z ->
      remaining_balance
        (state_at p (Py.range_len (mortgage_years p * 12))) = 0 /\
      remaining_mortgage_balance (details r) = 0)).
Proof.
  intros Hrate Hterm. split; [apply r_m_zero_rate; assumption |].
  exists (simulate_rent_vs_buy p). split; [reflexivity |].
  split; [apply mort_payment_zero_rate; assumption |].
  intros Hhor. split.
  - apply straight_paid_off; [assumption | assumption | apply le_n].
  - apply straight_paid_off; [assumption | assumption |].
    unfold Py.range_len, n_months. lia.
Qed.

Lemma C4_witness_zero_rate_defaults :
  monthly_mortgage_payment (details (simulate_rent_vs_buy zero_rate_params))
    = 7000000 / 360 /\
  remaining_mortgage_balance (details (simulate_rent_vs_buy zero_rate_params))
    = 0.
Proof.
  destruct (C4_zero_rate_straight_line zero_rate_params eq_refl eq_refl)
    as (_ & r & Hr & Hpay & Hbal).
  injection Hr as <-.
  split.
  - rewrite Hpay. unfold loan_principal, down_payment, house_price. simpl. lra.
  - apply Hbal. discriminate.
Defined.

(** ** The reference scenario *)

(** The payment when the monthly rate is not zero: the annuity formula. *)
Lemma mort_payment_annuity (p : Params) :
  r_m p <> 0 ->
  mort_payment p =
    loan_principal p * powerRZ (1 + r_m p) (n_m p)
    / ((powerRZ (1 + r_m p) (n_m p) - 1) / r_m p).
Proof.
  intros Hr. unfold mort_payment, Npf.pmt, Npf.fv, Npf.when.
  destruct (Req_dec_T (r_m p) 0) as [H0 | _]; [contradiction |].
  replace ((1 + r_m p * 0) * (powerRZ (1 + r_m p) (n_m p) - 1) / r_m p)
    with ((powerRZ (1 + r_m p) (n_m p) - 1) / r_m p)
    by (unfold Rdiv; ring).
  unfold Rdiv. ring.
Qed.

Lemma default_derived :
  house_price default_params = 10000000 /\
  monthly_rent default_params = 25000 /\
  loan_principal default_params = 7000000.
Proof.
  unfold loan_principal, down_payment, monthly_rent, house_price. simpl.
  repeat split; lra.
Qed.

(** The monthly rate of the scenario, bracketed to eight decimals. *)
Lemma default_r_m_bounds :
  287089 / 100000000 <= r_m default_params <= 287090 / 100000000.
Proof.
  unfold r_m. simpl mortgage_rate_annual.
  pose proof (root12_lower (100287089 / 100000000) (1 + 35 / 1000)) as Hlo.
  pose proof (root12_upper (100287090 / 100000000) (1 + 35 / 1000)) as Hhi.
  assert (100287089 / 100000000 <= Py.root12 (1 + 35 / 1000))
    by (apply Hlo; lra).
  assert (Py.root12 (1 + 35 / 1000) <= 100287090 / 100000000)
    by (apply Hhi; lra).
  lra.
Qed.

(** Over 360 months the monthly factor compounds to 1.035^30. *)
Lemma default_compound :
  powerRZ (1 + r_m default_params) (n_m default_params) = (1035 / 1000) ^ 30.
Proof.
  unfold r_m, n_m. simpl mortgage_rate_annual. simpl mortgage_years.
  replace (1 + (Py.root12 (1 + 35 / 1000) - 1))
    with (Py.root12 (1 + 35 / 1000)) by ring.
  change (30 * 12)%Z with (Z.of_nat (12 * 30)).
  rewrite <- pow_powerRZ, pow_mult, root12_pow12 by lra.
  f_equal. lra.
Qed.

Lemma default_mort_payment_bounds :
  31218 <= mort_payment default_params <= 31220.
Proof.
  pose proof default_r_m_bounds as [Hlo Hhi].
  destruct default_derived as (_ & _ & HL).
  rewrite mort_payment_annuity by lra.
  rewrite default_compound, HL.
  set (T := (1035 / 1000) ^ 30).
  assert (HT : 280679 / 100000 <= T <= 280680 / 100000) by (unfold T; lra).
  set (r := r_m default_params) in *.
  replace (7000000 * T / ((T - 1) / r)) with (7000000 * T * r / (T - 1))
    by (field; lra).
  assert (HTr_lo : T * (287089 / 100000000) <= T * r)
    by (apply Rmult_le_compat_l; lra).
  assert (HTr_hi : T * r <= T * (287090 / 100000000))
    by (apply Rmult_le_compat_l; lra).
  split.
  - apply Rmult_le_reg_r with (T - 1); [lra |].
    unfold Rdiv. rewrite Rmult_assoc, Rinv_l by lra. lra.
  - apply Rmult_le_reg_r with (T - 1); [lra |].
    unfold Rdiv. rewrite Rmult_assoc, Rinv_l by lra. lra.
Qed.

(** The scenario's payment at the program's monthly rate
    1.035^(1/12) - 1 is below 31220, more than 200 units away from
    31435. *)
Lemma C7_counterexample_payment_not_31435 :
  r_m default_params = Rpower (1035 / 1000) (1 / 12) - 1 /\
  ~ (31435 - 1
     <= monthly_mortgage_payment (details (simulate_rent_vs_buy default_params))
     <= 31435 + 1).
Proof.
  split.
  - unfold r_m. simpl mortgage_rate_annual. rewrite root12_pos by lra.
    f_equal. f_equal. lra.
  - change (monthly_mortgage_payment
              (details (simulate_rent_vs_buy default_params)))
      with (mort_payment default_params).
    pose proof default_mort_payment_bounds. lra.
Qed.

(** C7 (amended): for the reference scenario the result carries
    house price = 10,000,000 and initial monthly rent = 25,000, the loan
    principal is 7,000,000, and the constant monthly payment computed at
    the monthly rate r_m = 1.035^(1/12) - 1 over 360 payments lies within
    1 unit of 31,219. *)
Theorem C7_reference_scenario :
  let r := simulate_rent_vs_buy default_params in
  params_house_price r = 10000000 /\
  params_monthly_rent r = 25000 /\
  loan_principal default_params = 7000000 /\
  r_m default_params = Rpower (1035 / 1000) (1 / 12) - 1 /\
  n_m default_params = 360%Z /\
  31219 - 1 <= monthly_mortgage_payment (details r) <= 31219 + 1.
Proof.
  intros r. subst r.
  destruct default_derived as (Hh & Hr & HL).
  repeat split; try assumption.
  - unfold r_m. simpl mortgage_rate_annual. rewrite root12_pos by lra.
    f_equal. f_equal. lra.
  - change (monthly_mortgage_payment
              (details (simulate_rent_vs_buy default_params)))
      with (mort_payment default_params).
    pose proof default_mort_payment_bounds. lra.
  - change (monthly_mortgage_payment
              (details (simulate_rent_vs_buy default_params)))
      with (mort_payment default_params).
    pose proof default_mort_payment_bounds. lra.
Qed.

(** ** Cash purchase with flat markets *)

(** A zero present value gives a zero payment at any rate. *)
Lemma pmt_zero_principal (rate : R) (nper : Z) : Npf.pmt rate nper 0 = 0.
Proof. unfold Npf.pmt, Npf.fv, Rdiv. ring. Qed.

Section CashPurchase.

Variable p : Params.
Hypothesis Hinv : investment_return_annual p = 0.
Hypothesis Happ : house_appreciation_annual p = 0.
Hypothesis Hrent : rent_increase_annual p = 0.
Hypothesis Hdown : down_payment_pct p = 1.

Lemma cash_f_inv : f_inv p = 0.
Proof. unfold f_inv. rewrite Hinv, Rplus_0_r, root12_one. lra. Qed.

Lemma cash_f_house : f_house p = 1.
Proof. unfold f_house. rewrite Happ, Rplus_0_r. apply root12_one. Qed.

Lemma cash_f_rent : f_rent p = 1.
Proof. unfold f_rent. rewrite Hrent, Rplus_0_r. apply root12_one. Qed.

Lemma cash_loan_principal : loan_principal p = 0.
Proof. unfold loan_principal, down_payment. rewrite Hdown. ring. Qed.

Lemma cash_mort_payment : mort_payment p = 0.
Proof.
  unfold mort_payment. rewrite cash_loan_principal, pmt_zero_principal. ring.
Qed.

Lemma cash_diff (s : State) :
  property_value s = house_price p -> market_rent s = monthly_rent p ->
  Rmax (- diff p s) 0 = cash_monthly_saving p.
Proof.
  intros Hv Hm.
  unfold diff, owner_monthly_cost, renter_monthly_cost, mgmt_fee, gov_rates,
    cash_monthly_saving.
  rewrite cash_mort_payment, Hv, Hm. f_equal. ring.
Qed.

Lemma cash_state_at (k : nat) :
  property_value (state_at p k) = house_price p /\
  market_rent (state_at p k) = monthly_rent p /\
  remaining_balance (state_at p k) = 0 /\
  owner_side_invest (state_at p k) =
    if invest_monthly_diffs p then INR k * cash_monthly_saving p else 0.
Proof.
  induction k as [| k (IHv & IHm & IHb & IHo)].
  - unfold state_at; simpl. repeat split.
    + apply cash_loan_principal.
    + destruct (invest_monthly_diffs p); ring.
  - rewrite state_at_S. repeat split.
    + rewrite step_property_value, IHv, cash_f_house. ring.
    + rewrite step_market_rent, IHm, cash_f_rent. ring.
    + rewrite step_remaining_balance, IHb, cash_mort_payment.
      rewrite Rmult_0_l, Rminus_0_r, (Rmax_left 0 0), Rminus_0_r
        by apply Rle_refl.
      apply Rmax_left, Rle_refl.
    + pose proof (cash_diff (state_at p k) IHv IHm) as Hsave.
      destruct (invest_monthly_diffs p) eqn:Hflag.
      * destruct (Rlt_dec 0 (diff p (state_at p k))) as [Hd | Hd].
        -- destruct (step_invest_renter p _ Hflag Hd) as [-> _].
           rewrite IHo, cash_f_inv, S_INR, <- Hsave, Rmax_right by lra.
           ring.
        -- assert (Hd' : diff p (state_at p k) <= 0) by lra.
           destruct (step_invest_owner p _ Hflag Hd') as [-> _].
           rewrite IHo, cash_f_inv, S_INR, <- Hsave, Rmax_left by lra.
           ring.
      * destruct (step_invest_off p (state_at p k) Hflag) as [-> _].
        rewrite IHo. ring.
Qed.

Lemma cash_buy_net_worth :
  buy_net_worth (simulate_rent_vs_buy p) =
    Rmax (house_price p * (1 - sell_closing_cost_pct p)) 0
    + (if invest_monthly_diffs p
       then INR (Py.range_len (horizon_years p * 12)) * cash_monthly_saving p
       else 0).
Proof.
  unfold simulate_rent_vs_buy, settle, buy_net_worth, equity_realized,
    sell_closing_cost, sale_proceeds_before_costs, final_state, n_months.
  destruct (cash_state_at (Py.range_len (horizon_years p * 12)))
    as (-> & _ & -> & ->).
  f_equal. f_equal. ring.
Qed.

End CashPurchase.

(** The defaults with flat markets and a 100% down payment: rent 25,000
    exceeds fee 1,250 plus levy 1,250, so the owner invests 22,500 in
    each of the 360 months and the buy net worth is 18,000,000, not
    house price * (1 - 1%) = 9,900,000. *)
Lemma C9_counterexample_owner_savings_invested :
  investment_return_annual cash_purchase_params = 0 /\
  house_appreciation_annual cash_purchase_params = 0 /\
  rent_increase_annual cash_purchase_params = 0 /\
  down_payment_pct cash_purchase_params = 1 /\
  buy_net_worth (simulate_rent_vs_buy cash_purchase_params) = 18000000 /\
  buy_net_worth (simulate_rent_vs_buy cash_purchase_params) <>
    house_price cash_purchase_params
    * (1 - sell_closing_cost_pct cash_purchase_params).
Proof.
  assert (H : buy_net_worth (simulate_rent_vs_buy cash_purchase_params)
              = 18000000).
  { rewrite cash_buy_net_worth by reflexivity.
    unfold cash_monthly_saving, monthly_rent, house_price.
    cbn [cash_purchase_params invest_monthly_diffs horizon_years
         house_size_sqft house_price_per_sqft monthly_rent_per_sqft
         sell_closing_cost_pct mgmt_fee_pct_of_value_annual
         gov_rate_pct_of_rent_annual].
    replace (INR (Py.range_len (30 * 12))) with 360
      by (unfold Py.range_len; rewrite INR_IZR_INZ, Z2Nat.id by lia;
          reflexivity).
    rewrite (Rmax_left _ 0) by lra. rewrite (Rmax_left _ 0) by lra. lra. }
  repeat split; try reflexivity; try exact H.
  rewrite H. unfold house_price. simpl. lra.
Qed.

(** C9 (amended): for zero investment return, zero house appreciation,
    zero rent inflation and a down-payment fraction of 100% (with a
    positive mortgage term and a mortgage rate of at least -100%), the
    buy net worth returned is max(house price * (1 - sell closing cost
    fraction), 0) plus the owner-side balance, which is 0 when
    differential investing is disabled and otherwise the number of months
    times max(monthly rent - (management fee + levy), 0); so it equals
    house price * (1 - sell closing cost fraction) exactly when that
    amount is not negative and either differential investing is disabled
    or the monthly rent does not exceed management fee + levy. *)
Theorem C9_cash_purchase_net_worth (p : Params) :
  investment_return_annual p = 0 ->
  house_appreciation_annual p = 0 ->
  rent_increase_annual p = 0 ->
  down_payment_pct p = 1 ->
  (0 < mortgage_years p)%Z ->
  0 <= 1 + mortgage_rate_annual p ->
  let r := simulate_rent_vs_buy p in
  let sale := house_price p * (1 - sell_closing_cost_pct p) in
  let n := Py.range_len (horizon_years p * 12) in
  loan_principal p = 0 /\
  buy_net_worth r =
    Rmax sale 0
    + (if invest_monthly_diffs p then INR n * cash_monthly_saving p else 0) /\
  (0 <= sale ->
   invest_monthly_diffs p = false \/
   monthly_rent p <= house_price p * mgmt_fee_pct_of_value_annual p / 12
                     + monthly_rent p * gov_rate_pct_of_rent_annual p ->
   buy_net_worth r = sale).
Proof.
  intros Hinv Happ Hrent Hdown _ _ r sale n. subst r sale n.
  split; [apply cash_loan_principal; assumption |].
  split; [apply cash_buy_net_worth; assumption |].
  intros Hsale Hcase.
  rewrite cash_buy_net_worth by assumption.
  rewrite Rmax_left by assumption.
  destruct Hcase as [Hflag | Hcost].
  - rewrite Hflag. ring.
  - unfold cash_monthly_saving. rewrite (Rmax_right _ 0) by lra.
    destruct (invest_monthly_diffs p); ring.
Qed.

Lemma C9_witness_cash_purchase_defaults :
  buy_net_worth (simulate_rent_vs_buy cash_purchase_params) =
    Rmax (house_price cash_purchase_params
          * (1 - sell_closing_cost_pct cash_purchase_params)) 0
    + INR 360 * cash_monthly_saving cash_purchase_params.
Proof.
  apply (C9_cash_purchase_net_worth cash_purchase_params);
    try reflexivity; simpl; lra.
Defined.

(** ** Parameters are not validated *)

Lemma no_iteration (p : Params) :
  (horizon_years p <= 0)%Z -> final_state p = init_state p.
Proof.
  intros H. unfold final_state, state_at, Py.range_len, n_months.
  replace (Z.to_nat (horizon_years p * 12)) with 0%nat by lia.
  reflexivity.
Qed.

(** The defaults with a horizon of zero years are invalid in the
    specification's sense, yet the call raises nothing: the loop body
    never runs and the result is the settlement of the initial state,
    with months = 0, rent net worth 3,000,000 + 500,000 and buy net worth
    10,000,000 - 100,000 - 7,000,000. *)
Lemma C8_counterexample_zero_horizon_returns :
  spec_invalid_parameter zero_horizon_params /\
  (forall e : exn, simulate zero_horizon_params <> Raises e) /\
  exists r : SimulationResult,
    simulate zero_horizon_params = Returns r /\
    months r = 0%Z /\
    rent_net_worth r = 3500000 /\
    buy_net_worth r = 2900000.
Proof.
  split; [| split].
  - right; right; left. simpl. lia.
  - intros e. discriminate.
  - exists (simulate_rent_vs_buy zero_horizon_params).
    split; [reflexivity |]. split; [reflexivity |].
    unfold simulate_rent_vs_buy.
    rewrite no_iteration by (simpl; lia).
    unfold settle, init_state, equity_realized, sell_closing_cost,
      sale_proceeds_before_costs, loan_principal, buy_closing_cost,
      down_payment, house_price.
    simpl. split; [lra |].
    rewrite Rmax_left by lra. lra.
Qed.

(** C8 (amended): simulate does not reject a non-positive horizon.  For
    a parameter set with horizon_years <= 0, invalid in the
    specification's sense, that is otherwise inside the model (positive
    mortgage term, rates of at least -100%, amounts within the float
    range), no simulation step runs and the call returns the settlement
    of the initial state: months = horizon_years * 12, rent net worth =
    down payment + buy closing cost, buy net worth = max(house price -
    house price * sell closing cost fraction - loan principal, 0),
    remaining balance = loan principal, final property value and rent
    = the initial ones, owner-side balance 0 and renter's total cash
    out 0. *)
Theorem C8_non_positive_horizon_not_rejected (p : Params) :
  (horizon_years p <= 0)%Z ->
  (0 < mortgage_years p)%Z ->
  real_factors p ->
  within_float_range p ->
  spec_invalid_parameter p /\
  Py.range_len (n_months p) = 0%nat /\
  final_state p = init_state p /\
  simulate p = Returns (settle p (init_state p)) /\
  months (simulate_rent_vs_buy p) = (horizon_years p * 12)%Z /\
  rent_net_worth (simulate_rent_vs_buy p) =
    down_payment p + buy_closing_cost p /\
  buy_net_worth (simulate_rent_vs_buy p) =
    Rmax (house_price p - house_price p * sell_closing_cost_pct p
          - loan_principal p) 0 /\
  remaining_mortgage_balance (details (simulate_rent_vs_buy p)) =
    loan_principal p /\
  property_value_end (details (simulate_rent_vs_buy p)) = house_price p /\
  monthly_rent_end (details (simulate_rent_vs_buy p)) = monthly_rent p /\
  owner_side_invest_end (details (simulate_rent_vs_buy p)) = 0 /\
  total_renter_cash_out_end (details (simulate_rent_vs_buy p)) = 0.
Proof.
  intros Hh _ _ _.
  pose proof (no_iteration p Hh) as Hfinal.
  split; [right; right; left; exact Hh |].
  split; [unfold Py.range_len, n_months; lia |].
  split; [exact Hfinal |].
  split; [unfold simulate, simulate_rent_vs_buy; rewrite Hfinal; reflexivity |].
  unfold simulate_rent_vs_buy. rewrite Hfinal.
  unfold settle, init_state, equity_realized, sell_closing_cost,
    sale_proceeds_before_costs.
  cbn [months rent_net_worth buy_net_worth details
       remaining_mortgage_balance property_value_end monthly_rent_end
       owner_side_invest_end total_renter_cash_out_end
       property_value market_rent remaining_balance owner_side_invest
       renter_invest total_renter_cash_out].
  repeat split; ring.
Qed.

(** The defaults with a horizon of minus five years. *)
Lemma C8_witness_negative_horizon :
  rent_net_worth
    (simulate_rent_vs_buy
       (mkParams 500 20000 50 (30 / 100) (35 / 1000) 30 (7 / 100) (1 / 100)
          (2 / 100) (5 / 100) (15 / 10000) (5 / 100) (1 / 100) (-5) true))
  = 500 * 20000 * (30 / 100) + 500 * 20000 * (5 / 100).
Proof.
  apply (C8_non_positive_horizon_not_rejected
           (mkParams 500 20000 50 (30 / 100) (35 / 1000) 30 (7 / 100)
              (1 / 100) (2 / 100) (5 / 100) (15 / 10000) (5 / 100)
              (1 / 100) (-5) true)).
  - discriminate.
  - reflexivity.
  - unfold real_factors; simpl; lra.
  - unfold within_float_range, loan_principal, down_payment,
      buy_closing_cost, monthly_rent, house_price. simpl.
    repeat split; try (apply finite_modest; lra); lia.
Defined.

(** * Further properties of the simulation *)

(** ** Monthly factors compound to the annual rates *)

Lemma root12_pow12_nonneg (x : R) : 0 <= x -> Py.root12 x ^ 12 = x.
Proof.
  intros [Hx | <-]; [apply root12_pow12; assumption |].
  unfold Py.root12. destruct (Rlt_dec 0 0); [lra |].
  apply pow_ne_zero. discriminate.
Qed.

Lemma root12_pow_years (x : R) (y : nat) :
  0 <= x -> Py.root12 x ^ (12 * y) = x ^ y.
Proof.
  intros Hx. rewrite pow_mult, root12_pow12_nonneg by assumption. reflexivity.
Qed.

Lemma iterations_of_years (h : Z) :
  Py.range_len (h * 12) = (12 * Z.to_nat h)%nat.
Proof. unfold Py.range_len. lia. Qed.

(** X1: the property value and the market rent reported at the end are
    the initial ones grown at the annual rates for the whole years of the
    horizon: twelve monthly updates by (1 + rate)^(1/12) make one year at
    1 + rate, for rates of at least -100%. *)
Theorem market_values_grow_at_annual_rates (p : Params) :
  0 <= 1 + house_appreciation_annual p ->
  0 <= 1 + rent_increase_annual p ->
  let d := details (simulate_rent_vs_buy p) in
  let y := Z.to_nat (horizon_years p) in
  property_value_end d = house_price p * (1 + house_appreciation_annual p) ^ y /\
  monthly_rent_end d = monthly_rent p * (1 + rent_increase_annual p) ^ y.
Proof.
  intros Ha Hr d y. subst d y.
  change (property_value_end (details (simulate_rent_vs_buy p)))
    with (property_value (final_state p)).
  change (monthly_rent_end (details (simulate_rent_vs_buy p)))
    with (market_rent (final_state p)).
  unfold final_state, n_months.
  rewrite property_value_at, market_rent_at, iterations_of_years.
  unfold f_house, f_rent. rewrite !root12_pow_years by assumption.
  split; reflexivity.
Qed.

Lemma market_values_grow_witness :
  property_value_end (details (simulate_rent_vs_buy default_params))
    = house_price default_params * (1 + 1 / 100) ^ 30.
Proof.
  apply (market_values_grow_at_annual_rates default_params); simpl; lra.
Defined.

(** X2: with differential investing disabled the rent net worth is the
    seed (down payment + buy closing cost) compounded at the annual
    investment return for the whole years of the horizon. *)
Theorem seed_compounds_at_annual_return (p : Params) :
  invest_monthly_diffs p = false ->
  0 <= 1 + investment_return_annual p ->
  rent_net_worth (simulate_rent_vs_buy p) =
    (down_payment p + buy_closing_cost p)
    * (1 + investment_return_annual p) ^ Z.to_nat (horizon_years p).
Proof.
  intros Hflag Hret.
  change (rent_net_worth (simulate_rent_vs_buy p))
    with (renter_invest (final_state p)).
  unfold final_state, n_months.
  destruct (invest_off_at p (Py.range_len (horizon_years p * 12)) Hflag)
    as [_ ->].
  rewrite iterations_of_years. unfold f_inv.
  replace (1 + (Py.root12 (1 + investment_return_annual p) - 1))
    with (Py.root12 (1 + investment_return_annual p)) by ring.
  rewrite root12_pow_years by assumption. reflexivity.
Qed.

Lemma seed_compounds_witness :
  rent_net_worth (simulate_rent_vs_buy no_diffs_params) =
    (down_payment no_diffs_params + buy_closing_cost no_diffs_params)
    * (1 + 7 / 100) ^ 30.
Proof.
  apply (seed_compounds_at_annual_return no_diffs_params);
    [reflexivity | simpl; lra].
Defined.

(** ** The running cash-out totals *)

Lemma sum_months_ext (f g : nat -> R) (k : nat) :
  (forall j, (j < k)%nat -> f j = g j) -> sum_months f k = sum_months g k.
Proof.
  induction k as [| k IH]; intros H; [reflexivity |].
  simpl. rewrite IH, H by (intros; try apply H; lia). reflexivity.
Qed.

(** The geometric sum, without a division. *)
Lemma sum_months_geometric (a c : R) (k : nat) :
  sum_months (fun j => a * c ^ j) k * (c - 1) = a * (c ^ k - 1).
Proof.
  induction k as [| k IH]; simpl; [ring |].
  rewrite Rmult_plus_distr_r, IH. ring.
Qed.

Lemma sum_months_const (a : R) (k : nat) :
  sum_months (fun _ => a) k = INR k * a.
Proof.
  induction k as [| k IH]; [simpl; ring |].
  change (sum_months (fun _ => a) (S k))
    with (sum_months (fun _ => a) k + a).
  rewrite IH, S_INR. ring.
Qed.

Lemma total_renter_cash_out_at (p : Params) (k : nat) :
  total_renter_cash_out (state_at p k) =
    sum_months (fun j => monthly_rent p * f_rent p ^ j) k.
Proof.
  induction k as [| k IH]; [reflexivity |].
  rewrite state_at_S, step_total_renter_cash_out, IH, market_rent_at.
  reflexivity.
Qed.

(** X3: the renter's total cash out is the sum of the rents of all the
    months run, a geometric sum in the monthly rent factor:
    total * (f_rent - 1) = initial rent * (f_rent^months - 1); with no
    rent inflation it is months * initial rent. *)
Theorem renter_cash_out_is_sum_of_rents (p : Params) :
  let n := Py.range_len (horizon_years p * 12) in
  let total := total_renter_cash_out_end (details (simulate_rent_vs_buy p)) in
  total = sum_months (fun j => market_rent (state_at p j)) n /\
  total * (f_rent p - 1) = monthly_rent p * (f_rent p ^ n - 1) /\
  (rent_increase_annual p = 0 -> total = INR n * monthly_rent p).
Proof.
  intros n total. subst n total.
  change (total_renter_cash_out_end (details (simulate_rent_vs_buy p)))
    with (total_renter_cash_out (final_state p)).
  unfold final_state, n_months. rewrite total_renter_cash_out_at.
  split; [| split].
  - apply sum_months_ext. intros j _. rewrite market_rent_at. reflexivity.
  - apply sum_months_geometric.
  - intros H0.
    assert (Hf : f_rent p = 1)
      by (unfold f_rent; rewrite H0, Rplus_0_r; apply root12_one).
    rewrite Hf. rewrite <- sum_months_const.
    apply sum_months_ext. intros j _. rewrite pow1. ring.
Qed.

Lemma total_owner_cash_out_at (p : Params) (k : nat) :
  total_owner_cash_out (state_at p k) =
    down_payment p + buy_closing_cost p + INR k * mort_payment p
    + sum_months (fun j => mgmt_fee p (state_at p j)
                           + gov_rates p (state_at p j)) k.
Proof.
  induction k as [| k IH].
  - unfold state_at; simpl. ring.
  - rewrite state_at_S, step_total_owner_cash_out, IH, S_INR.
    unfold owner_monthly_cost. simpl sum_months. ring.
Qed.

(** X4: the owner's total cash out is the upfront cash (down payment +
    buy closing cost), one full mortgage payment for every month of the
    horizon, whether or not the mortgage term has ended or the balance
    has reached zero, and the management fees and levies of those
    months. *)
Theorem owner_pays_every_month_of_horizon (p : Params) :
  let n := Py.range_len (horizon_years p * 12) in
  total_owner_cash_out_end (details (simulate_rent_vs_buy p)) =
    down_payment p + buy_closing_cost p
    + INR n * monthly_mortgage_payment (details (simulate_rent_vs_buy p))
    + sum_months
        (fun j => house_price p * f_house p ^ j
                  * mgmt_fee_pct_of_value_annual p / 12
                  + monthly_rent p * f_rent p ^ j
                    * gov_rate_pct_of_rent_annual p) n.
Proof.
  intros n. subst n.
  change (total_owner_cash_out_end (details (simulate_rent_vs_buy p)))
    with (total_owner_cash_out (final_state p)).
  change (monthly_mortgage_payment (details (simulate_rent_vs_buy p)))
    with (mort_payment p).
  unfold final_state, n_months. rewrite total_owner_cash_out_at.
  f_equal. apply sum_months_ext. intros j _.
  unfold mgmt_fee, gov_rates. rewrite property_value_at, market_rent_at.
  reflexivity.
Qed.

(** ** Cash is conserved when nothing is earned on it *)

Lemma side_balance_gap_at (p : Params) (k : nat) :
  invest_monthly_diffs p = true ->
  investment_return_annual p = 0 ->
  renter_invest (state_at p k) - owner_side_invest (state_at p k) =
    total_owner_cash_out (state_at p k) - total_renter_cash_out (state_at p k).
Proof.
  intros Hflag Hret.
  assert (Hf : f_inv p = 0)
    by (unfold f_inv; rewrite Hret, Rplus_0_r, root12_one; lra).
  induction k as [| k IH].
  - unfold state_at; simpl. ring.
  - rewrite state_at_S, step_total_owner_cash_out, step_total_renter_cash_out.
    set (s := state_at p k) in *.
    assert (Hd : diff p s = owner_monthly_cost p s - market_rent s)
      by reflexivity.
    destruct (Rlt_dec 0 (diff p s)) as [Hpos | Hneg].
    + destruct (step_invest_renter p s Hflag Hpos) as [-> ->].
      rewrite Hf. lra.
    + assert (Hle : diff p s <= 0) by lra.
      destruct (step_invest_owner p s Hflag Hle) as [-> ->].
      rewrite Hf. lra.
Qed.

(** X5: with differential investing enabled and an investment return of
    zero, the side accounts hold exactly the cash the two parties did not
    spend: renter-side balance - owner-side balance equals the owner's
    total cash out - the renter's total cash out, after every iteration
    and in the result. *)
Theorem side_balances_mirror_cash_outlays (p : Params) :
  invest_monthly_diffs p = true ->
  investment_return_annual p = 0 ->
  (forall k : nat,
     renter_invest (state_at p k) - owner_side_invest (state_at p k) =
       total_owner_cash_out (state_at p k)
       - total_renter_cash_out (state_at p k)) /\
  let d := details (simulate_rent_vs_buy p) in
  rent_net_worth (simulate_rent_vs_buy p) - owner_side_invest_end d =
    total_owner_cash_out_end d - total_renter_cash_out_end d.
Proof.
  intros Hflag Hret. split.
  - intros k. apply side_balance_gap_at; assumption.
  - apply (side_balance_gap_at p _ Hflag Hret).
Qed.

Lemma side_balances_mirror_witness :
  rent_net_worth (simulate_rent_vs_buy cash_purchase_params)
  - owner_side_invest_end (details (simulate_rent_vs_buy cash_purchase_params))
  = total_owner_cash_out_end (details (simulate_rent_vs_buy cash_purchase_params))
    - total_renter_cash_out_end
        (details (simulate_rent_vs_buy cash_purchase_params)).
Proof.
  apply (side_balances_mirror_cash_outlays cash_purchase_params);
    reflexivity.
Defined.

(** ** The amortization schedule at a positive rate *)

Lemma root12_gt_one (x : R) : 1 < x -> 1 < Py.root12 x.
Proof.
  intros Hx. destruct (root12_ge_one x) as [Hlt | Heq]; [lra | exact Hlt |].
  pose proof (root12_pow12 x) as H12. rewrite <- Heq, pow1 in H12. lra.
Qed.

Section Schedule.

Variable p : Params.
Hypothesis Hrate : 0 < mortgage_rate_annual p.
Hypothesis Hloan : 0 <= loan_principal p.
Hypothesis Hterm : (0 < mortgage_years p)%Z.

Lemma schedule_r_m_pos : 0 < r_m p.
Proof.
  unfold r_m. pose proof (root12_gt_one (1 + mortgage_rate_annual p)). lra.
Qed.

Lemma schedule_compound :
  powerRZ (1 + r_m p) (n_m p) = (1 + r_m p) ^ Z.to_nat (n_m p).
Proof.
  rewrite pow_powerRZ. f_equal. unfold n_m. lia.
Qed.

Lemma schedule_compound_gt_one : 1 < (1 + r_m p) ^ Z.to_nat (n_m p).
Proof.
  apply Rlt_pow_R1; [pose proof schedule_r_m_pos; lra | unfold n_m; lia].
Qed.

(** The payment times (T - 1) is principal * rate * T, T the compound
    factor over the term. *)
Lemma schedule_payment :
  mort_payment p * ((1 + r_m p) ^ Z.to_nat (n_m p) - 1) =
    loan_principal p * r_m p * (1 + r_m p) ^ Z.to_nat (n_m p).
Proof.
  pose proof schedule_r_m_pos as Hr.
  pose proof schedule_compound_gt_one as HT.
  rewrite mort_payment_annuity by lra.
  rewrite schedule_compound. field. lra.
Qed.

Lemma schedule_payment_nonneg : 0 <= mort_payment p.
Proof.
  pose proof schedule_r_m_pos as Hr.
  pose proof schedule_compound_gt_one as HT.
  pose proof schedule_payment as HP.
  assert (0 <= loan_principal p * r_m p * (1 + r_m p) ^ Z.to_nat (n_m p)).
  { apply Rmult_le_pos; [apply Rmult_le_pos; lra | lra]. }
  apply Rmult_le_reg_r with ((1 + r_m p) ^ Z.to_nat (n_m p) - 1); lra.
Qed.

(** During the term the balance follows the annuity schedule, stated
    without a division: balance_k * (T - 1) = principal * (T - q^k). *)
Lemma schedule_balance_at (k : nat) :
  (k <= Z.to_nat (n_m p))%nat ->
  remaining_balance (state_at p k) * ((1 + r_m p) ^ Z.to_nat (n_m p) - 1) =
    loan_principal p * ((1 + r_m p) ^ Z.to_nat (n_m p) - (1 + r_m p) ^ k).
Proof.
  pose proof schedule_r_m_pos as Hr.
  pose proof schedule_compound_gt_one as HT.
  pose proof schedule_payment as HP.
  set (T := (1 + r_m p) ^ Z.to_nat (n_m p)) in *.
  induction k as [| k IH]; intros Hk.
  - unfold state_at; simpl. ring.
  - specialize (IH ltac:(lia)).
    set (b := remaining_balance (state_at p k)) in *.
    assert (Hq : (1 + r_m p) ^ S k <= T)
      by (apply Rle_pow; [lra | exact Hk]).
    assert (Hqk : 0 < (1 + r_m p) ^ k) by (apply pow_lt; lra).
    simpl pow in Hq.
    assert (Hprin : (mort_payment p - b * r_m p) * (T - 1) =
                    loan_principal p * r_m p * (1 + r_m p) ^ k)
      by (rewrite Rmult_minus_distr_r, HP;
          replace (b * r_m p * (T - 1)) with (b * (T - 1) * r_m p) by ring;
          rewrite IH; ring).
    assert (Hprin0 : 0 <= mort_payment p - b * r_m p).
    { apply Rmult_le_reg_r with (T - 1); [lra |].
      rewrite Rmult_0_l, Hprin.
      apply Rmult_le_pos; [apply Rmult_le_pos; lra | lra]. }
    assert (Hnext : (b - (mort_payment p - b * r_m p)) * (T - 1) =
                    loan_principal p * (T - (1 + r_m p) * (1 + r_m p) ^ k))
      by (rewrite Rmult_minus_distr_r, Hprin, IH; ring).
    assert (Hnext0 : 0 <= b - (mort_payment p - b * r_m p)).
    { apply Rmult_le_reg_r with (T - 1); [lra |].
      rewrite Rmult_0_l, Hnext. apply Rmult_le_pos; lra. }
    rewrite state_at_S, step_remaining_balance. fold b.
    rewrite (Rmax_left (mort_payment p - b * r_m p) 0) by assumption.
    rewrite Rmax_left by assumption.
    rewrite Hnext. simpl pow. reflexivity.
Qed.

Lemma schedule_paid_off (k : nat) :
  (Z.to_nat (n_m p) <= k)%nat -> remaining_balance (state_at p k) = 0.
Proof.
  pose proof schedule_compound_gt_one as HT.
  induction k as [| k IH]; intros Hk.
  - unfold n_m in Hk. lia.
  - destruct (Nat.eq_dec (Z.to_nat (n_m p)) (S k)) as [Heq | Hne].
    + pose proof (schedule_balance_at (S k) ltac:(lia)) as H.
      rewrite <- Heq in H at 2. rewrite Rminus_diag, Rmult_0_r in H.
      apply Rmult_integral in H. destruct H as [H | H]; [exact H | lra].
    + rewrite state_at_S, step_remaining_balance, IH by lia.
      rewrite Rmult_0_l, Rminus_0_r.
      rewrite (Rmax_left (mort_payment p) 0) by apply schedule_payment_nonneg.
      apply Rmax_right. pose proof schedule_payment_nonneg. lra.
Qed.

End Schedule.

(** X6: at a positive mortgage rate, with a non-negative loan principal
    and a positive term, the level payment amortizes the loan over the
    term: after k <= n payments the balance is
    principal * (q^n - q^k) / (q^n - 1) with q = 1 + r_m and
    n = mortgage_years * 12, so neither floor is ever active during the
    term, and the balance is 0 after the n-th payment and stays 0.
    Twelve months at r_m compound to the annual rate: q^12 = 1 + rate. *)
Theorem level_payment_amortizes_over_term (p : Params) :
  0 < mortgage_rate_annual p ->
  0 <= loan_principal p ->
  (0 < mortgage_years p)%Z ->
  let n := Z.to_nat (mortgage_years p * 12) in
  let q := 1 + r_m p in
  q ^ 12 = 1 + mortgage_rate_annual p /\
  (forall k : nat, (k <= n)%nat ->
     remaining_balance (state_at p k) =
       loan_principal p * (q ^ n - q ^ k) / (q ^ n - 1)) /\
  (forall k : nat, (n <= k)%nat -> remaining_balance (state_at p k) = 0).
Proof.
  intros Hrate Hloan Hterm n q. subst n q.
  pose proof (schedule_compound_gt_one p Hrate Hterm) as HT.
  unfold n_m in HT. split; [| split].
  - unfold r_m.
    replace (1 + (Py.root12 (1 + mortgage_rate_annual p) - 1))
      with (Py.root12 (1 + mortgage_rate_annual p)) by ring.
    apply root12_pow12. lra.
  - intros k Hk.
    pose proof (schedule_balance_at p Hrate Hloan Hterm k Hk) as H.
    unfold n_m in H.
    apply Rmult_eq_reg_r with ((1 + r_m p) ^ Z.to_nat (mortgage_years p * 12) - 1);
      [| lra].
    rewrite H. field. lra.
  - intros k Hk. apply schedule_paid_off; assumption.
Qed.

Lemma level_payment_amortizes_witness :
  remaining_balance (state_at default_params 360) = 0.
Proof.
  apply (level_payment_amortizes_over_term default_params);
    [simpl; lra | | reflexivity | apply le_n].
  destruct default_derived as (_ & _ & ->). lra.
Defined.

(** X7: in exact arithmetic, at a positive mortgage rate, with a
    non-negative loan principal, a positive term and a horizon at least
    as long as the term, the remaining balance at the end is 0 and the
    owner's realized equity is the whole sale value net of the selling
    cost, floored at 0:
    max(final property value * (1 - sell closing cost fraction), 0).
    (As for the zero-rate schedule, the binary64 run can leave a rounding
    residue in the balance in place of the exact 0.) *)
Theorem equity_is_net_sale_value_after_term (p : Params) :
  0 < mortgage_rate_annual p ->
  0 <= loan_principal p ->
  (0 < mortgage_years p <= horizon_years p)%Z ->
  let d := details (simulate_rent_vs_buy p) in
  remaining_mortgage_balance d = 0 /\
  owner_equity_realized d =
    Rmax (property_value_end d * (1 - sell_closing_cost_pct p)) 0.
Proof.
  intros Hrate Hloan [Hterm Hhor] d. subst d.
  assert (Hb : remaining_balance (final_state p) = 0).
  { apply schedule_paid_off; try assumption.
    unfold final_state, Py.range_len, n_months, n_m. lia. }
  split; [exact Hb |].
  change (owner_equity_realized (details (simulate_rent_vs_buy p)))
    with (equity_realized p (final_state p)).
  unfold equity_realized, sell_closing_cost, sale_proceeds_before_costs.
  rewrite Hb. simpl. f_equal. ring.
Qed.

Lemma equity_is_net_sale_value_witness :
  remaining_mortgage_balance (details (simulate_rent_vs_buy default_params)) = 0.
Proof.
  apply (equity_is_net_sale_value_after_term default_params).
  - simpl; lra.
  - destruct default_derived as (_ & _ & ->). lra.
  - split; [reflexivity | discriminate].
Defined.

(** ** A house of size zero *)

Lemma zero_size_state_at (p : Params) (k : nat) :
  house_size_sqft p = 0 ->
  state_at p k = mkState 0 0 0 0 0 0 0.
Proof.
  intros Hsize.
  assert (Hhp : house_price p = 0) by (unfold house_price; rewrite Hsize; ring).
  assert (Hmr : monthly_rent p = 0) by (unfold monthly_rent; rewrite Hsize; ring).
  assert (Hdp : down_payment p = 0) by (unfold down_payment; rewrite Hhp; ring).
  assert (Hbc : buy_closing_cost p = 0)
    by (unfold buy_closing_cost; rewrite Hhp; ring).
  assert (HL : loan_principal p = 0)
    by (unfold loan_principal; rewrite Hhp, Hdp; ring).
  assert (Hmp : mort_payment p = 0)
    by (unfold mort_payment; rewrite HL, pmt_zero_principal; ring).
  induction k as [| k IH].
  - unfold state_at, loop, init_state. rewrite Hhp, Hmr, HL, Hdp, Hbc.
    f_equal; ring.
  - rewrite state_at_S, IH.
    assert (Hdiff : diff p (mkState 0 0 0 0 0 0 0) = 0).
    { unfold diff, owner_monthly_cost, renter_monthly_cost, mgmt_fee, gov_rates.
      rewrite Hmp. simpl. field. }
    unfold step, principal, interest. rewrite Hdiff.
    unfold owner_monthly_cost, renter_monthly_cost, mgmt_fee, gov_rates.
    rewrite Hmp. simpl.
    assert (Hmax : Rmax (0 - Rmax (0 - 0 * r_m p) 0) 0 = 0).
    { replace (0 - 0 * r_m p) with 0 by ring.
      rewrite (Rmax_left 0 0) by lra. rewrite Rminus_diag.
      apply Rmax_left; lra. }
    rewrite Hmax.
    destruct (invest_monthly_diffs p), (Rlt_dec 0 0); try lra;
      f_equal; field.
Qed.

(** X8: for a house size of zero (positive mortgage term, rates of at
    least -100%) nothing ever moves: every state of the loop is all
    zeros and the result reports buy net worth, rent net worth and net
    advantage 0, a tie, for any horizon and either setting of the
    flag. *)
Theorem zero_size_gives_all_zero_tie (p : Params) :
  house_size_sqft p = 0 ->
  (0 < mortgage_years p)%Z ->
  real_factors p ->
  (forall k : nat, state_at p k = mkState 0 0 0 0 0 0 0) /\
  buy_net_worth (simulate_rent_vs_buy p) = 0 /\
  rent_net_worth (simulate_rent_vs_buy p) = 0 /\
  net_advantage_buy (simulate_rent_vs_buy p) = 0.
Proof.
  intros Hsize _ _.
  split; [intros k; apply zero_size_state_at; assumption |].
  unfold simulate_rent_vs_buy, final_state.
  rewrite zero_size_state_at by assumption.
  unfold settle, equity_realized, sell_closing_cost,
    sale_proceeds_before_costs. simpl.
  assert (Hmax : Rmax (0 - 0 * sell_closing_cost_pct p - 0) 0 = 0)
    by (apply Rmax_right; lra).
  rewrite Hmax. repeat split; ring.
Qed.

Lemma zero_size_witness :
  net_advantage_buy (simulate_rent_vs_buy zero_size_params) = 0.
Proof.
  apply (zero_size_gives_all_zero_tie zero_size_params);
    [reflexivity | reflexivity | unfold real_factors; simpl; lra].
Defined.

(** ** The printed verdict *)

(** X9: the report says "BUY better by" exactly when the buy net worth
    of the result exceeds its rent net worth and "RENT better by" in
    every other case; there is no tie wording, so an exact tie is
    reported as "RENT better by" with amount 0.  The amount printed is
    the absolute difference of the two net worths. *)
Theorem verdict_favours_rent_on_tie (p : Params) :
  let r := simulate_rent_vs_buy p in
  (verdict r = "BUY better by"%string <->
   rent_net_worth r < buy_net_worth r) /\
  (verdict r = "RENT better by"%string <->
   buy_net_worth r <= rent_net_worth r) /\
  (buy_net_worth r = rent_net_worth r ->
   verdict r = "RENT better by"%string /\ verdict_amount r = 0) /\
  verdict_amount r = Rabs (buy_net_worth r - rent_net_worth r).
Proof.
  intros r. subst r.
  assert (Hadv : net_advantage_buy (simulate_rent_vs_buy p) =
                 buy_net_worth (simulate_rent_vs_buy p)
                 - rent_net_worth (simulate_rent_vs_buy p)) by reflexivity.
  unfold verdict, verdict_amount. rewrite Hadv.
  set (b := buy_net_worth (simulate_rent_vs_buy p)).
  set (t := rent_net_worth (simulate_rent_vs_buy p)).
  destruct (Rlt_dec 0 (b - t)) as [Hpos | Hneg].
  - repeat split; intros; try lra; try reflexivity; discriminate.
  - repeat split; intros; try lra; try reflexivity; try discriminate.
    replace (b - t) with 0 by lra. apply Rabs_R0.
Qed.

(** * Properties of the closed-form script *)

Lemma script_div_nonzero (x y : R) :
  y <> 0 -> Script.div x y = Script.Ok (x / y).
Proof.
  intros Hy. unfold Script.div.
  destruct (Req_dec_T y 0); [contradiction | reflexivity].
Qed.

Lemma script_div_zero (x : R) :
  Script.div x 0 = Script.Err Script.ZeroDivisionError.
Proof.
  unfold Script.div.
  destruct (Req_dec_T 0 0) as [_ | H]; [reflexivity | contradiction H; reflexivity].
Qed.

Lemma script_div_ok (x y v : R) :
  Script.div x y = Script.Ok v -> y <> 0 /\ v = x / y.
Proof.
  unfold Script.div. destruct (Req_dec_T y 0); [discriminate |].
  intros H. injection H as <-. split; [assumption | reflexivity].
Qed.

Lemma script_math_pow_ok (x v : R) (n : Z) :
  Script.math_pow x n = Script.Ok v -> v = powerRZ x n.
Proof.
  unfold Script.math_pow.
  destruct (Rlt_dec Py.float_max (Rabs (IZR n))); [discriminate |].
  destruct (Req_dec_T x 0).
  - destruct (n <? 0)%Z; [discriminate |].
    intros H; injection H as <-; reflexivity.
  - destruct (Rlt_dec Py.float_max (Rabs (powerRZ x n))); [discriminate |].
    intros H; injection H as <-; reflexivity.
Qed.

(** [math.pow(1.0, n)] is 1.0 for every exponent that converts. *)
Lemma script_math_pow_one (n : Z) :
  Py.finite (IZR n) -> Script.math_pow 1 n = Script.Ok 1.
Proof.
  intros Hn. unfold Script.math_pow, Py.finite in *.
  destruct (Rlt_dec Py.float_max (Rabs (IZR n))); [lra |].
  destruct (Req_dec_T 1 0); [lra |].
  rewrite powerRZ_R1, Rabs_R1.
  destruct (Rlt_dec Py.float_max 1); [| reflexivity].
  pose proof float_max_ge_one. lra.
Qed.

(** [math.pow(x, 0)] is 1.0 for every base. *)
Lemma script_math_pow_zero_exponent (x : R) :
  Script.math_pow x 0 = Script.Ok 1.
Proof.
  unfold Script.math_pow.
  destruct (Rlt_dec Py.float_max (Rabs 0)) as [H0 |];
    [rewrite Rabs_R0 in H0; pose proof float_max_ge_one; lra |].
  destruct (Req_dec_T x 0); [reflexivity |].
  simpl powerRZ. rewrite Rabs_R1.
  destruct (Rlt_dec Py.float_max 1); [| reflexivity].
  pose proof float_max_ge_one. lra.
Qed.

Lemma powerRZ_nonneg_exponent (x : R) (n : Z) :
  (0 <= n)%Z -> powerRZ x n = x ^ Z.to_nat n.
Proof.
  intros Hn. rewrite pow_powerRZ. f_equal. lia.
Qed.

(** A base in (0, 2] with an exponent in [0, 1023] does not overflow. *)
Lemma script_math_pow_small (x : R) (n : Z) :
  0 < x <= 2 -> (0 <= n <= 1023)%Z ->
  Script.math_pow x n = Script.Ok (powerRZ x n).
Proof.
  intros [Hx0 Hx2] [Hn0 Hn1]. unfold Script.math_pow.
  destruct (Rlt_dec Py.float_max (Rabs (IZR n))) as [Hexp |].
  { pose proof (finite_exponent n ltac:(lia)) as Hfin.
    unfold Py.finite in Hfin. lra. }
  destruct (Req_dec_T x 0); [lra |].
  destruct (Rlt_dec Py.float_max (Rabs (powerRZ x n))) as [Hover |];
    [| reflexivity].
  exfalso. rewrite powerRZ_nonneg_exponent in Hover by assumption.
  assert (Hpos : 0 < x ^ Z.to_nat n) by (apply pow_lt; assumption).
  rewrite Rabs_pos_eq in Hover by lra.
  assert (H1 : x ^ Z.to_nat n <= 2 ^ Z.to_nat n)
    by (apply pow_incr; lra).
  assert (H2 : 2 ^ Z.to_nat n <= 2 ^ 1023)
    by (apply Rle_pow; [lra | lia]).
  pose proof float_max_ge_pow2. lra.
Qed.

Lemma powerRZ_gt_one (x : R) (n : Z) :
  1 < x -> (0 < n)%Z -> 1 < powerRZ x n.
Proof.
  intros Hx Hn. rewrite powerRZ_nonneg_exponent by lia.
  apply Rlt_pow_R1; [assumption | lia].
Qed.

(** X10: whenever the script's payment expression evaluates (no
    [ZeroDivisionError], [ValueError] or [OverflowError]), its value is
    the payment numpy_financial computes for the same loan:
    -pmt(mortgage_rate / 12, years * 12, house_price), a loan of the
    whole house price at the nominal monthly rate. *)
Theorem script_payment_agrees_with_pmt (i : Script.Inputs) (P : R) :
  Script.monthly_payment i = Script.Ok P ->
  P = - Npf.pmt (Script.mortgage_rate i / 12) (Script.years i * 12)
        (Script.house_price i).
Proof.
  unfold Script.monthly_payment, Script.bind.
  destruct (Script.math_pow (1 + Script.mortgage_rate i / 12)
              (Script.years i * 12)) as [t | e] eqn:Hpow; [| discriminate].
  apply script_math_pow_ok in Hpow.
  intros Hdiv. apply script_div_ok in Hdiv. destruct Hdiv as [Ht ->].
  assert (Hr : Script.mortgage_rate i / 12 <> 0).
  { intros H0. apply Ht. rewrite Hpow, H0, Rplus_0_r, powerRZ_R1. ring. }
  unfold Npf.pmt, Npf.fv, Npf.when.
  destruct (Req_dec_T (Script.mortgage_rate i / 12) 0); [contradiction |].
  rewrite <- Hpow. field. split; [lra | exact Ht].
Qed.

(** The script's own constants: every statement evaluates. *)
Lemma script_inputs_payment :
  Script.monthly_payment Script.script_inputs =
    Script.Ok (10000000 * (35 / 1000) / 12
               * powerRZ (1 + 35 / 1000 / 12) 360
               / (powerRZ (1 + 35 / 1000 / 12) 360 - 1)).
Proof.
  unfold Script.monthly_payment, Script.bind.
  cbn [Script.script_inputs Script.house_price Script.mortgage_rate
       Script.years].
  change (30 * 12)%Z with 360%Z.
  rewrite script_math_pow_small by (split; first [lra | lia]).
  apply script_div_nonzero.
  assert (1 < powerRZ (1 + 35 / 1000 / 12) 360)
    by (apply powerRZ_gt_one; [lra | lia]).
  lra.
Qed.

Lemma script_inputs_run :
  exists ratio pv hv : R,
    Script.run Script.script_inputs = Script.Ok (ratio, pv, hv, pv - hv).
Proof.
  unfold Script.run, Script.price_to_rent_ratio, Script.investment_pv,
    Script.investment_amount, Script.house_value_end.
  rewrite script_inputs_payment.
  cbn [Script.script_inputs Script.house_price Script.monthly_rent
       Script.years Script.investment_yield Script.house_appreciation
       Script.bind].
  rewrite script_div_nonzero by lra.
  change (12 * 30)%Z with 360%Z.
  cbn [Script.bind].
  rewrite (script_math_pow_small (1 + 7 / 100 / 12) 360)
    by (split; first [lra | lia]).
  cbn [Script.bind].
  rewrite script_div_nonzero by lra.
  cbn [Script.bind].
  rewrite (script_math_pow_small (1 + 2 / 100) 30)
    by (split; first [lra | lia]).
  cbn [Script.bind].
  eexists _, _, _. reflexivity.
Qed.

Lemma script_payment_agrees_witness :
  exists P : R,
    Script.monthly_payment Script.script_inputs = Script.Ok P /\
    P = - Npf.pmt (35 / 1000 / 12) 360 10000000.
Proof.
  eexists. split.
  - apply script_inputs_payment.
  - apply (script_payment_agrees_with_pmt Script.script_inputs).
    apply script_inputs_payment.
Defined.

(** With a mortgage rate or a number of years of 0 the payment
    expression raises: the power, if it evaluates, is 1, and the
    division is by 1 - 1. *)
Lemma script_payment_raises (i : Script.Inputs) :
  Script.mortgage_rate i = 0 \/ Script.years i = 0%Z ->
  exists e : Script.error, Script.monthly_payment i = Script.Err e.
Proof.
  intros Hc. unfold Script.monthly_payment, Script.bind.
  destruct (Script.math_pow (1 + Script.mortgage_rate i / 12)
              (Script.years i * 12)) as [t | e] eqn:Hpow;
    [| exists e; reflexivity].
  apply script_math_pow_ok in Hpow.
  assert (Ht : t = 1).
  { destruct Hc as [Hc | Hc]; rewrite Hc in Hpow.
    - replace (1 + 0 / 12) with 1 in Hpow by field.
      rewrite powerRZ_R1 in Hpow. exact Hpow.
    - exact Hpow. }
  rewrite Ht, Rminus_diag, script_div_zero. eexists; reflexivity.
Qed.

Lemma script_payment_divides_by_zero (i : Script.Inputs) :
  Script.in_float_range i ->
  Script.mortgage_rate i = 0 \/ Script.years i = 0%Z ->
  Script.monthly_payment i = Script.Err Script.ZeroDivisionError.
Proof.
  intros (_ & _ & _ & _ & _ & _ & Hn) Hc.
  unfold Script.monthly_payment, Script.bind.
  assert (Hone : Script.math_pow (1 + Script.mortgage_rate i / 12)
                   (Script.years i * 12) = Script.Ok 1).
  { destruct Hc as [Hc | Hc].
    - rewrite Hc. replace (1 + 0 / 12) with 1 by field.
      apply script_math_pow_one; assumption.
    - rewrite Hc. change (0 * 12)%Z with 0%Z.
      apply script_math_pow_zero_exponent. }
  rewrite Hone, Rminus_diag. apply script_div_zero.
Qed.

(** X11: the script has no fallback for a zero rate: with a mortgage
    rate of 0, an investment yield of 0, a term of 0 years or a monthly
    rent of 0 an exception stops it before its last line.  When the
    constants are within the float range and the monthly rent, the
    mortgage rate or the number of years is 0, the exception is
    [ZeroDivisionError]; at a mortgage rate of 0 it is the payment
    expression itself that fails, whereas numpy_financial's pmt at rate
    0 and a positive number of years returns the straight-line payment
    -(pv / nper). *)
Theorem script_stops_on_zero_rate (i : Script.Inputs) :
  Script.mortgage_rate i = 0 \/ Script.investment_yield i = 0 \/
  Script.years i = 0%Z \/ Script.monthly_rent i = 0 ->
  (exists e : Script.error, Script.run i = Script.Err e) /\
  (Script.in_float_range i ->
   Script.mortgage_rate i = 0 \/ Script.years i = 0%Z \/
   Script.monthly_rent i = 0 ->
   Script.run i = Script.Err Script.ZeroDivisionError) /\
  (Script.mortgage_rate i = 0 ->
   (exists e : Script.error, Script.monthly_payment i = Script.Err e) /\
   (Script.in_float_range i ->
    Script.monthly_payment i = Script.Err Script.ZeroDivisionError) /\
   ((0 < Script.years i)%Z ->
    - Npf.pmt (Script.mortgage_rate i / 12) (Script.years i * 12)
        (Script.house_price i)
    = Script.house_price i / IZR (Script.years i * 12))).
Proof.
  intros H. split; [| split].
  - unfold Script.run, Script.bind.
    destruct (Script.price_to_rent_ratio i) as [ratio | e] eqn:Hratio;
      [| exists e; reflexivity].
    unfold Script.investment_pv, Script.bind.
    destruct (Script.investment_amount i) as [a | e] eqn:Hamount;
      [| exists e; reflexivity].
    destruct H as [H | [H | [H | H]]].
    + exfalso. unfold Script.investment_amount, Script.bind in Hamount.
      destruct (script_payment_raises i (or_introl H)) as [e He].
      rewrite He in Hamount. discriminate.
    + destruct (Script.math_pow (1 + Script.investment_yield i / 12)
                  (12 * Script.years i)) as [t | e];
        [| exists e; reflexivity].
      rewrite H. replace (0 / 12) with 0 by field.
      rewrite script_div_zero. eexists; reflexivity.
    + exfalso. unfold Script.investment_amount, Script.bind in Hamount.
      destruct (script_payment_raises i (or_intror H)) as [e He].
      rewrite He in Hamount. discriminate.
    + exfalso. unfold Script.price_to_rent_ratio in Hratio.
      rewrite H, Rmult_0_l, script_div_zero in Hratio. discriminate.
  - intros Hrange Hc. unfold Script.run, Script.bind.
    destruct (Script.price_to_rent_ratio i) as [ratio | e] eqn:Hratio.
    + unfold Script.investment_pv, Script.investment_amount, Script.bind.
      rewrite script_payment_divides_by_zero; [reflexivity | assumption |].
      destruct Hc as [Hc | [Hc | Hc]]; [left; assumption | right; assumption |].
      exfalso. unfold Script.price_to_rent_ratio in Hratio.
      rewrite Hc, Rmult_0_l, script_div_zero in Hratio. discriminate.
    + unfold Script.price_to_rent_ratio, Script.div in Hratio.
      destruct (Req_dec_T (Script.monthly_rent i * 12) 0);
        [injection Hratio as <-; reflexivity | discriminate].
  - intros H0. split; [| split].
    + apply script_payment_raises. left; assumption.
    + intros Hrange. apply script_payment_divides_by_zero;
        [assumption | left; assumption].
    + intros _. rewrite H0. replace (0 / 12) with 0 by field.
      rewrite pmt_zero_rate. ring.
Qed.

Lemma script_stops_witness :
  Script.run (Script.mkInputs 10000000 30000 30 0 (2 / 100) (7 / 100))
  = Script.Err Script.ZeroDivisionError.
Proof.
  apply (script_stops_on_zero_rate
           (Script.mkInputs 10000000 30000 30 0 (2 / 100) (7 / 100))).
  - left; reflexivity.
  - unfold Script.in_float_range. simpl.
    repeat split; apply finite_modest; lra.
  - left; reflexivity.
Defined.

(** X12: whenever the script runs to its last line (no statement
    raises) with a number of years that is not negative, the four values
    it prints are, in exact arithmetic: the price-to-rent ratio
    house_price / (monthly_rent * 12); the investment value, which is
    the value of a deposit of [investment_amount] made at the end of each
    of the 12 * years months and compounded monthly at
    investment_yield / 12, the sum of amount * (1 + yield / 12)^k over
    k < 12 * years; the house value
    house_price * (1 + house_appreciation)^years; and their
    difference. *)
Theorem script_investment_is_sum_of_deposits
    (i : Script.Inputs) (ratio pv hv lead : R) :
  (0 <= Script.years i)%Z ->
  Script.run i = Script.Ok (ratio, pv, hv, lead) ->
  ratio = Script.house_price i / (Script.monthly_rent i * 12) /\
  (exists a : R,
     Script.investment_amount i = Script.Ok a /\
     pv = sum_months (fun k => a * (1 + Script.investment_yield i / 12) ^ k)
            (Z.to_nat (12 * Script.years i))) /\
  hv = Script.house_price i
       * (1 + Script.house_appreciation i) ^ Z.to_nat (Script.years i) /\
  lead = pv - hv.
Proof.
  intros Hy Hrun. unfold Script.run, Script.bind in Hrun.
  destruct (Script.price_to_rent_ratio i) as [ratio' | ] eqn:Hratio;
    [| discriminate].
  destruct (Script.investment_pv i) as [pv' | ] eqn:Hpv; [| discriminate].
  destruct (Script.house_value_end i) as [hv' | ] eqn:Hhv; [| discriminate].
  injection Hrun as <- <- <- <-.
  split; [| split; [| split; [| reflexivity]]].
  - unfold Script.price_to_rent_ratio in Hratio.
    apply script_div_ok in Hratio. apply Hratio.
  - unfold Script.investment_pv, Script.bind in Hpv.
    destruct (Script.investment_amount i) as [a | ]; [| discriminate].
    exists a. split; [reflexivity |].
    destruct (Script.math_pow (1 + Script.investment_yield i / 12)
                (12 * Script.years i)) as [t | ] eqn:Hpow; [| discriminate].
    apply script_math_pow_ok in Hpow.
    apply script_div_ok in Hpv. destruct Hpv as [Hyield ->].
    rewrite powerRZ_nonneg_exponent in Hpow by lia. subst t.
    set (c := 1 + Script.investment_yield i / 12).
    set (n := Z.to_nat (12 * Script.years i)).
    pose proof (sum_months_geometric a c n) as Hg.
    apply Rmult_eq_reg_r with (c - 1); [| unfold c; lra].
    rewrite Hg. unfold c. field. lra.
  - unfold Script.house_value_end, Script.bind in Hhv.
    destruct (Script.math_pow (1 + Script.house_appreciation i)
                (Script.years i)) as [t | ] eqn:Hpow; [| discriminate].
    apply script_math_pow_ok in Hpow.
    injection Hhv as <-.
    rewrite Hpow, powerRZ_nonneg_exponent by assumption. reflexivity.
Qed.

Lemma script_investment_witness :
  exists ratio pv hv a : R,
    Script.run Script.script_inputs = Script.Ok (ratio, pv, hv, pv - hv) /\
    Script.investment_amount Script.script_inputs = Script.Ok a /\
    pv = sum_months (fun k => a * (1 + 7 / 100 / 12) ^ k) 360 /\
    hv = 10000000 * (1 + 2 / 100) ^ 30.
Proof.
  destruct script_inputs_run as (ratio & pv & hv & Hrun).
  destruct (script_investment_is_sum_of_deposits
              Script.script_inputs ratio pv hv (pv - hv))
    as (_ & (a & Ha & Hsum) & Hhv & _).
  - discriminate.
  - exact Hrun.
  - exists ratio, pv, hv, a. repeat split; assumption.
Defined.

(** * Further properties of the side accounts *)

Lemma compound_factor_nonneg (p : Params) : 0 <= 1 + f_inv p.
Proof.
  unfold f_inv. pose proof (root12_nonneg (1 + investment_return_annual p)).
  lra.
Qed.

(** ** The renter never borrows *)

Lemma side_lower_bounds_at (p : Params) (k : nat) :
  0 <= owner_side_invest (state_at p k) /\
  (down_payment p + buy_closing_cost p) * (1 + f_inv p) ^ k
    <= renter_invest (state_at p k).
Proof.
  pose proof (compound_factor_nonneg p) as Hf.
  induction k as [| k [IHo IHr]].
  - unfold state_at; simpl. lra.
  - rewrite state_at_S. set (s := state_at p k) in *.
    assert (Ho : 0 <= owner_side_invest s * (1 + f_inv p))
      by (apply Rmult_le_pos; assumption).
    assert (Hr : (down_payment p + buy_closing_cost p) * (1 + f_inv p) ^ S k
                 <= renter_invest s * (1 + f_inv p)).
    { simpl pow.
      replace ((down_payment p + buy_closing_cost p)
               * ((1 + f_inv p) * (1 + f_inv p) ^ k))
        with ((down_payment p + buy_closing_cost p) * (1 + f_inv p) ^ k
              * (1 + f_inv p)) by ring.
      apply Rmult_le_compat_r; assumption. }
    destruct (invest_monthly_diffs p) eqn:Hflag.
    + destruct (Rlt_dec 0 (diff p s)) as [Hd | Hd].
      * destruct (step_invest_renter p s Hflag Hd) as [-> ->]. lra.
      * assert (Hd' : diff p s <= 0) by lra.
        destruct (step_invest_owner p s Hflag Hd') as [-> ->]. lra.
    + destruct (step_invest_off p s Hflag) as [-> ->]. lra.
Qed.

Lemma renter_only_compounds_at (p : Params) (k : nat) :
  (forall j : nat, (j < k)%nat -> diff p (state_at p j) <= 0) ->
  renter_invest (state_at p k) =
    (down_payment p + buy_closing_cost p) * (1 + f_inv p) ^ k.
Proof.
  induction k as [| k IH]; intros Hd.
  - unfold state_at; simpl. ring.
  - rewrite state_at_S.
    assert (Hr : renter_invest (step p (state_at p k)) =
                 renter_invest (state_at p k) * (1 + f_inv p)).
    { destruct (invest_monthly_diffs p) eqn:Hflag.
      - apply (step_invest_owner p _ Hflag). apply Hd. lia.
      - apply (step_invest_off p _ Hflag). }
    rewrite Hr, IH by (intros j Hj; apply Hd; lia). simpl. ring.
Qed.

(** X13: for an investment return of at least -100%, whatever the other
    parameters and the flag: cash is only ever added to a side account,
    so the owner-side balance is never negative, the buy net worth is
    never negative, and the rent net worth is never below the seed
    compounded at the annual return over the years of the horizon; the
    renter is never made to borrow.  When owning costs no more than
    renting in every month run, the rent net worth is exactly that
    compounded seed. *)
Theorem renter_never_borrows (p : Params) :
  0 <= 1 + investment_return_annual p ->
  let r := simulate_rent_vs_buy p in
  let seed := down_payment p + buy_closing_cost p in
  let grown := seed * (1 + investment_return_annual p) ^ Z.to_nat (horizon_years p) in
  0 <= owner_side_invest_end (details r) /\
  0 <= buy_net_worth r /\
  grown <= rent_net_worth r /\
  ((forall j : nat, (j < Py.range_len (horizon_years p * 12))%nat ->
      owner_monthly_cost p (state_at p j) <= market_rent (state_at p j)) ->
   rent_net_worth r = grown).
Proof.
  intros Hret r seed grown. subst r seed grown.
  assert (Hgrow : (1 + f_inv p) ^ Py.range_len (horizon_years p * 12) =
                  (1 + investment_return_annual p) ^ Z.to_nat (horizon_years p)).
  { rewrite iterations_of_years. unfold f_inv.
    replace (1 + (Py.root12 (1 + investment_return_annual p) - 1))
      with (Py.root12 (1 + investment_return_annual p)) by ring.
    apply root12_pow_years; assumption. }
  destruct (side_lower_bounds_at p (Py.range_len (horizon_years p * 12)))
    as [Ho Hr].
  rewrite Hgrow in Hr.
  change (rent_net_worth (simulate_rent_vs_buy p))
    with (renter_invest (final_state p)).
  change (owner_side_invest_end (details (simulate_rent_vs_buy p)))
    with (owner_side_invest (final_state p)).
  change (buy_net_worth (simulate_rent_vs_buy p))
    with (equity_realized p (final_state p) + owner_side_invest (final_state p)).
  unfold final_state, n_months.
  repeat split; try assumption.
  - pose proof (Rmax_r
      (sale_proceeds_before_costs
         (state_at p (Py.range_len (horizon_years p * 12)))
       - sell_closing_cost p (state_at p (Py.range_len (horizon_years p * 12)))
       - remaining_balance (state_at p (Py.range_len (horizon_years p * 12))))
      0).
    unfold equity_realized. lra.
  - intros Hcheap. rewrite <- Hgrow. apply renter_only_compounds_at.
    intros j Hj. specialize (Hcheap j Hj).
    unfold diff, renter_monthly_cost. lra.
Qed.

Lemma renter_never_borrows_witness :
  (down_payment default_params + buy_closing_cost default_params)
  * (1 + 7 / 100) ^ 30
  <= rent_net_worth (simulate_rent_vs_buy default_params).
Proof.
  apply (renter_never_borrows default_params). simpl. lra.
Defined.

(** ** What the flag changes *)

Lemma flag_free_fields_at (b : bool) (p : Params) (k : nat) :
  property_value (state_at (with_invest_monthly_diffs b p) k)
    = property_value (state_at p k) /\
  market_rent (state_at (with_invest_monthly_diffs b p) k)
    = market_rent (state_at p k) /\
  remaining_balance (state_at (with_invest_monthly_diffs b p) k)
    = remaining_balance (state_at p k) /\
  total_owner_cash_out (state_at (with_invest_monthly_diffs b p) k)
    = total_owner_cash_out (state_at p k) /\
  total_renter_cash_out (state_at (with_invest_monthly_diffs b p) k)
    = total_renter_cash_out (state_at p k).
Proof.
  induction k as [| k (IHv & IHm & IHb & IHo & IHr)].
  - repeat split.
  - rewrite !state_at_S.
    rewrite !step_property_value, !step_market_rent, !step_remaining_balance,
      !step_total_owner_cash_out, !step_total_renter_cash_out.
    unfold owner_monthly_cost, mgmt_fee, gov_rates.
    rewrite IHv, IHm, IHb, IHo, IHr. repeat split.
Qed.

Lemma flag_on_dominates_at (p : Params) (k : nat) :
  0 <= owner_side_invest (state_at (with_invest_monthly_diffs true p) k) /\
  owner_side_invest (state_at (with_invest_monthly_diffs false p) k) = 0 /\
  renter_invest (state_at (with_invest_monthly_diffs false p) k)
    <= renter_invest (state_at (with_invest_monthly_diffs true p) k).
Proof.
  split; [apply side_lower_bounds_at |].
  destruct (invest_off_at (with_invest_monthly_diffs false p) k eq_refl)
    as [Ho Hr].
  split; [exact Ho |]. rewrite Hr.
  apply (side_lower_bounds_at (with_invest_monthly_diffs true p) k).
Qed.

(** X14: for an investment return of at least -100%, the flag
    [invest_monthly_diffs] changes the two side accounts and nothing
    else: the remaining balance, the final property value
    and rent, the realized equity, the payment and both cash-out totals
    of the result are the same with the flag on and off.  Switching it on
    never lowers a net worth: both the buy and the rent net worth are at
    least what they are with the flag off. *)
Theorem flag_only_moves_side_accounts (p : Params) :
  0 <= 1 + investment_return_annual p ->
  let on := simulate_rent_vs_buy (with_invest_monthly_diffs true p) in
  let off := simulate_rent_vs_buy (with_invest_monthly_diffs false p) in
  remaining_mortgage_balance (details on)
    = remaining_mortgage_balance (details off) /\
  property_value_end (details on) = property_value_end (details off) /\
  monthly_rent_end (details on) = monthly_rent_end (details off) /\
  owner_equity_realized (details on) = owner_equity_realized (details off) /\
  monthly_mortgage_payment (details on)
    = monthly_mortgage_payment (details off) /\
  total_owner_cash_out_end (details on)
    = total_owner_cash_out_end (details off) /\
  total_renter_cash_out_end (details on)
    = total_renter_cash_out_end (details off) /\
  buy_net_worth off <= buy_net_worth on /\
  rent_net_worth off <= rent_net_worth on.
Proof.
  intros _ on off. subst on off.
  set (n := Py.range_len (horizon_years p * 12)).
  destruct (flag_free_fields_at true p n) as (Hv1 & Hm1 & Hb1 & Ho1 & Hr1).
  destruct (flag_free_fields_at false p n) as (Hv0 & Hm0 & Hb0 & Ho0 & Hr0).
  destruct (flag_on_dominates_at p n) as (Hon & Hoff & Hrent).
  unfold simulate_rent_vs_buy, final_state, n_months, settle,
    equity_realized, sell_closing_cost, sale_proceeds_before_costs.
  cbn [details remaining_mortgage_balance property_value_end monthly_rent_end
       owner_equity_realized monthly_mortgage_payment
       total_owner_cash_out_end total_renter_cash_out_end
       buy_net_worth rent_net_worth
       with_invest_monthly_diffs horizon_years sell_closing_cost_pct].
  fold n. rewrite Hv1, Hb1, Hm1, Ho1, Hr1, Hv0, Hb0, Hm0, Ho0, Hr0, Hoff.
  repeat split; try reflexivity; lra.
Qed.

Lemma flag_only_moves_side_accounts_witness :
  rent_net_worth
    (simulate_rent_vs_buy (with_invest_monthly_diffs false default_params))
  <= rent_net_worth
       (simulate_rent_vs_buy (with_invest_monthly_diffs true default_params)).
Proof.
  apply (flag_only_moves_side_accounts default_params). simpl. lra.
Defined.

(** ** Scaling the house *)

Lemma State_ext (s s' : State) :
  property_value s = property_value s' ->
  market_rent s = market_rent s' ->
  remaining_balance s = remaining_balance s' ->
  owner_side_invest s = owner_side_invest s' ->
  renter_invest s = renter_invest s' ->
  total_owner_cash_out s = total_owner_cash_out s' ->
  total_renter_cash_out s = total_renter_cash_out s' ->
  s = s'.
Proof.
  destruct s, s'; simpl; intros; subst; reflexivity.
Qed.

Lemma Rmax_scale_floor (c x : R) : 0 <= c -> Rmax (c * x) 0 = c * Rmax x 0.
Proof.
  intros Hc. rewrite <- (RmaxRmult x 0 c Hc), Rmult_0_r. reflexivity.
Qed.

Lemma pmt_scale (rate : R) (nper : Z) (c pv : R) :
  Npf.pmt rate nper (c * pv) = c * Npf.pmt rate nper pv.
Proof. unfold Npf.pmt, Npf.fv, Rdiv. ring. Qed.

Section Scaling.

Variable c : R.
Variable p : Params.
Hypothesis Hc : 0 <= c.

Lemma scaled_house_price :
  house_price (with_size_scaled c p) = c * house_price p.
Proof. unfold house_price; simpl; ring. Qed.

Lemma scaled_monthly_rent :
  monthly_rent (with_size_scaled c p) = c * monthly_rent p.
Proof. unfold monthly_rent; simpl; ring. Qed.

Lemma scaled_down_payment :
  down_payment (with_size_scaled c p) = c * down_payment p.
Proof. unfold down_payment. rewrite scaled_house_price. simpl. ring. Qed.

Lemma scaled_buy_closing_cost :
  buy_closing_cost (with_size_scaled c p) = c * buy_closing_cost p.
Proof. unfold buy_closing_cost. rewrite scaled_house_price. simpl. ring. Qed.

Lemma scaled_loan_principal :
  loan_principal (with_size_scaled c p) = c * loan_principal p.
Proof.
  unfold loan_principal. rewrite scaled_house_price, scaled_down_payment. ring.
Qed.

Lemma scaled_mort_payment :
  mort_payment (with_size_scaled c p) = c * mort_payment p.
Proof.
  unfold mort_payment. rewrite scaled_loan_principal.
  change (r_m (with_size_scaled c p)) with (r_m p).
  change (n_m (with_size_scaled c p)) with (n_m p).
  rewrite pmt_scale. ring.
Qed.

Lemma scaled_init_state :
  init_state (with_size_scaled c p) = scale_state c (init_state p).
Proof.
  apply State_ext; simpl;
    rewrite ?scaled_house_price, ?scaled_monthly_rent, ?scaled_loan_principal,
      ?scaled_down_payment, ?scaled_buy_closing_cost; ring.
Qed.

(** Reduce the projections of a scaled state and of the scaled
    parameter set, and nothing else. *)
Ltac unscale :=
  cbn [scale_state with_size_scaled
       property_value market_rent remaining_balance owner_side_invest
       renter_invest total_owner_cash_out total_renter_cash_out
       mgmt_fee_pct_of_value_annual gov_rate_pct_of_rent_annual
       sell_closing_cost_pct invest_monthly_diffs];
  change (r_m (with_size_scaled c p)) with (r_m p);
  change (f_inv (with_size_scaled c p)) with (f_inv p);
  change (f_house (with_size_scaled c p)) with (f_house p);
  change (f_rent (with_size_scaled c p)) with (f_rent p).

Lemma scaled_diff (s : State) :
  diff (with_size_scaled c p) (scale_state c s) = c * diff p s.
Proof.
  unfold diff, owner_monthly_cost, renter_monthly_cost, mgmt_fee, gov_rates.
  rewrite scaled_mort_payment. unscale. field.
Qed.

Lemma scaled_step (s : State) :
  step (with_size_scaled c p) (scale_state c s) = scale_state c (step p s).
Proof.
  pose proof (scaled_diff s) as Hd.
  apply State_ext.
  - change (property_value (scale_state c (step p s)))
      with (c * property_value (step p s)).
    rewrite !step_property_value. unscale. ring.
  - change (market_rent (scale_state c (step p s)))
      with (c * market_rent (step p s)).
    rewrite !step_market_rent. unscale. ring.
  - change (remaining_balance (scale_state c (step p s)))
      with (c * remaining_balance (step p s)).
    rewrite !step_remaining_balance, scaled_mort_payment. unscale.
    replace (c * mort_payment p - c * remaining_balance s * r_m p)
      with (c * (mort_payment p - remaining_balance s * r_m p)) by ring.
    rewrite (Rmax_scale_floor _ _ Hc).
    replace (c * remaining_balance s
             - c * Rmax (mort_payment p - remaining_balance s * r_m p) 0)
      with (c * (remaining_balance s
                 - Rmax (mort_payment p - remaining_balance s * r_m p) 0))
      by ring.
    rewrite (Rmax_scale_floor _ _ Hc). reflexivity.
  - change (owner_side_invest (scale_state c (step p s)))
      with (c * owner_side_invest (step p s)).
    unfold step. rewrite Hd. unscale.
    destruct (invest_monthly_diffs p); [| unscale; ring].
    destruct (Rlt_dec 0 (c * diff p s)) as [H1 | H1];
      destruct (Rlt_dec 0 (diff p s)) as [H2 | H2]; unscale; try ring.
    + exfalso. assert (c * diff p s <= c * 0)
        by (apply Rmult_le_compat_l; lra). lra.
    + assert (0 <= c * diff p s) by (apply Rmult_le_pos; lra).
      replace (c * diff p s) with 0 by lra. ring.
  - change (renter_invest (scale_state c (step p s)))
      with (c * renter_invest (step p s)).
    unfold step. rewrite Hd. unscale.
    destruct (invest_monthly_diffs p); [| unscale; ring].
    destruct (Rlt_dec 0 (c * diff p s)) as [H1 | H1];
      destruct (Rlt_dec 0 (diff p s)) as [H2 | H2]; unscale; try ring.
    + exfalso. assert (c * diff p s <= c * 0)
        by (apply Rmult_le_compat_l; lra). lra.
    + assert (0 <= c * diff p s) by (apply Rmult_le_pos; lra).
      assert (Hz : c * diff p s = 0) by lra.
      replace (c * (renter_invest s * (1 + f_inv p) + diff p s))
        with (c * (renter_invest s * (1 + f_inv p)) + c * diff p s) by ring.
      rewrite Hz. ring.
  - change (total_owner_cash_out (scale_state c (step p s)))
      with (c * total_owner_cash_out (step p s)).
    rewrite !step_total_owner_cash_out.
    unfold owner_monthly_cost, mgmt_fee, gov_rates.
    rewrite scaled_mort_payment. unscale. field.
  - change (total_renter_cash_out (scale_state c (step p s)))
      with (c * total_renter_cash_out (step p s)).
    rewrite !step_total_renter_cash_out. unscale. ring.
Qed.

Lemma scaled_state_at (k : nat) :
  state_at (with_size_scaled c p) k = scale_state c (state_at p k).
Proof.
  induction k as [| k IH].
  - apply scaled_init_state.
  - rewrite !state_at_S, IH. apply scaled_step.
Qed.

End Scaling.

(** X15: the simulation is linear in the house size.  For c >= 0, a
    house c times the size (same prices per area, rates, fractions,
    years and flag) gives c times the buy net worth, the rent net worth,
    the net advantage and the monthly payment; so for c > 0 the printed
    verdict does not depend on the size. *)
Theorem result_scales_with_house_size (c : R) (p : Params) :
  0 <= c ->
  let r := simulate_rent_vs_buy p in
  let r' := simulate_rent_vs_buy (with_size_scaled c p) in
  buy_net_worth r' = c * buy_net_worth r /\
  rent_net_worth r' = c * rent_net_worth r /\
  net_advantage_buy r' = c * net_advantage_buy r /\
  monthly_mortgage_payment (details r') =
    c * monthly_mortgage_payment (details r) /\
  (0 < c -> verdict r' = verdict r).
Proof.
  intros Hc r r'. subst r r'.
  assert (Hfinal : final_state (with_size_scaled c p) =
                   scale_state c (final_state p))
    by (apply scaled_state_at; assumption).
  assert (Hbuy : buy_net_worth (simulate_rent_vs_buy (with_size_scaled c p)) =
                 c * buy_net_worth (simulate_rent_vs_buy p)).
  { unfold simulate_rent_vs_buy. rewrite Hfinal.
    unfold settle, equity_realized, sell_closing_cost,
      sale_proceeds_before_costs. simpl.
    replace (c * property_value (final_state p)
             - c * property_value (final_state p) * sell_closing_cost_pct p
             - c * remaining_balance (final_state p))
      with (c * (property_value (final_state p)
                 - property_value (final_state p) * sell_closing_cost_pct p
                 - remaining_balance (final_state p))) by ring.
    rewrite (Rmax_scale_floor _ _ Hc). ring. }
  assert (Hrent : rent_net_worth (simulate_rent_vs_buy (with_size_scaled c p)) =
                  c * rent_net_worth (simulate_rent_vs_buy p)).
  { unfold simulate_rent_vs_buy. rewrite Hfinal. reflexivity. }
  assert (Hadv : net_advantage_buy
                   (simulate_rent_vs_buy (with_size_scaled c p)) =
                 c * net_advantage_buy (simulate_rent_vs_buy p)).
  { change (net_advantage_buy (simulate_rent_vs_buy (with_size_scaled c p)))
      with (buy_net_worth (simulate_rent_vs_buy (with_size_scaled c p))
            - rent_net_worth (simulate_rent_vs_buy (with_size_scaled c p))).
    change (net_advantage_buy (simulate_rent_vs_buy p))
      with (buy_net_worth (simulate_rent_vs_buy p)
            - rent_net_worth (simulate_rent_vs_buy p)).
    rewrite Hbuy, Hrent. ring. }
  repeat split; try assumption.
  - apply scaled_mort_payment.
  - intros Hpos. unfold verdict. rewrite Hadv.
    set (a := net_advantage_buy (simulate_rent_vs_buy p)).
    destruct (Rlt_dec 0 (c * a)) as [H1 | H1];
      destruct (Rlt_dec 0 a) as [H2 | H2]; try reflexivity.
    + exfalso. assert (c * a <= c * 0) by (apply Rmult_le_compat_l; lra). lra.
    + exfalso. apply H1. apply Rmult_lt_0_compat; assumption.
Qed.

Lemma result_scales_witness :
  rent_net_worth (simulate_rent_vs_buy (with_size_scaled 2 default_params))
  = 2 * rent_net_worth (simulate_rent_vs_buy default_params).
Proof.
  apply (result_scales_with_house_size 2 default_params). lra.
Defined.
